(** * Neuron populations of the Quintana2020 network (src/node.py)

    A shallow embedding of the two node classes [QuintanaExcNodes] and
    [QuintanaSLNodes], and proofs about their per-step update rules; and of
    the recurrent inhibitory weights that the network builds (src/model.py).

    Modelling conventions.
    - Numbers: the buffers hold 32-bit floats in the program.  The update
      rules are modelled on exact rationals ([Q]), where rounding, infinities
      and NaN do not exist; numeric equalities that involve arithmetic are
      stated with [==] ([Qeq]), and values that the code merely copies
      ([masked_fill_], [fill_]) are related with Leibniz equality.  The
      properties stated on rationals are formulas of the program and order
      facts that rounding keeps.  Where a property depends on NaN, overflow
      or rounding, the excitatory population is modelled a second time on
      IEEE 754 binary32 numbers ([QuintanaExcNodes32]).
    - Tensors: a buffer of shape [batch, *shape] is a list of rows, one row
      per batch element, the neuron dimensions flattened to length [n].
      [theta] has shape [*shape] and is a single row.  Scalar parameters
      ([rest], [thresh], ...) are taken with their default kind, a number.
    - In-place mutation: every method returns the object after the call;
      [forward] also returns the caller's input tensor after the call, since
      the excitatory population writes into it.
    - Exceptions: a method that can raise returns a [result].
    - The base class [Nodes] belongs to the host framework (bindsnet), not to
      this repository.  Only what the subclasses read from it is kept: the
      neuron count, the [learning] flag, [dt] and the spike buffer [s].  Its
      own bookkeeping (spike traces, summed input) lives in buffers that the
      subclasses never read or write and is left out. *)

From Stdlib Require Import ZArith QArith Lqa List Bool Arith Lia.
From Stdlib Require Import SpecFloat.
Import ListNotations.

Open Scope Q_scope.

(** ** Exceptions *)

Inductive exn : Type :=
| AssertionError
| TypeError
| RuntimeError.

Inductive result (A : Type) : Type :=
| Ok (a : A)
| Raise (e : exn).

Arguments Ok {A} a.
Arguments Raise {A} e.

(** ** Comparisons producing booleans *)

Definition Qlt_bool (x y : Q) : bool :=
  (Qnum x * QDen y <? Qnum y * QDen x)%Z.

(** [a >= b] and [a > b] as the program writes them. *)
Definition Qge_bool (a b : Q) : bool := Qle_bool b a.
Definition Qgt_bool (a b : Q) : bool := Qlt_bool b a.

(** ** Tensors *)

Definition vec := list Q.
Definition tensor := list vec.
Definition mask := list (list bool).

Fixpoint map2 {A B C : Type} (f : A -> B -> C) (xs : list A) (ys : list B)
  : list C :=
  match xs, ys with
  | a :: xs', b :: ys' => f a b :: map2 f xs' ys'
  | _, _ => []
  end.

(** Element-wise operations on [batch, n] buffers. *)
Definition tmap {A B : Type} (f : A -> B) (t : list (list A)) : list (list B) :=
  map (map f) t.

Definition tmap2 {A B C : Type} (f : A -> B -> C)
  (t : list (list A)) (u : list (list B)) : list (list C) :=
  map2 (map2 f) t u.

(** Element-wise operation against a [n] tensor broadcast along the batch. *)
Definition tmap_row {A B C : Type} (f : A -> B -> C)
  (t : list (list A)) (row : list B) : list (list C) :=
  map (fun r => map2 f r row) t.

(** [t.masked_fill_(m, value)] *)
Definition masked_fill {A : Type} (t : list (list A)) (m : mask) (value : A)
  : list (list A) :=
  tmap2 (fun a (c : bool) => if c then value else a) t m.

(** [t.fill_(value)] *)
Definition fill {A : Type} (t : list (list A)) (value : A) : list (list A) :=
  tmap (fun _ => value) t.

(** [torch.zeros(batch_size, n)] and the like. *)
Definition full {A : Type} (batch_size n : nat) (value : A) : list (list A) :=
  repeat (repeat value n) batch_size.

(** [s.float()] *)
Definition float (c : bool) : Q := if c then 1 else 0.

(** [t.sum(0)] of a [batch, n] buffer: a [n] tensor. *)
Definition sum0 (n : nat) (t : tensor) : vec :=
  fold_right (map2 Qplus) (repeat 0 n) t.

(** Component [i] of batch element [b]. *)
Definition tget {A : Type} (t : list (list A)) (b i : nat) : option A :=
  match nth_error t b with
  | Some r => nth_error r i
  | None => None
  end.

(** Shape [batch_size, n]. *)
Definition has_shape {A : Type} (batch_size n : nat) (t : list (list A))
  : bool :=
  (length t =? batch_size)%nat && forallb (fun r => (length r =? n)%nat) t.

(** ** Constructor of the host base class

    [Nodes.__init__] asserts that one of [n], [shape] is given and that they
    agree; [reduce(mul, shape)] raises on an empty shape. *)

Definition reduce_mul (shape : list nat) : result nat :=
  match shape with
  | [] => Raise TypeError
  | d :: ds => Ok (fold_left Nat.mul ds d)
  end.

Definition Nodes_init (n : option nat) (shape : option (list nat))
  : result nat :=
  match n, shape with
  | None, None => Raise AssertionError
  | Some k, None => Ok k
  | None, Some sh => reduce_mul sh
  | Some k, Some sh =>
      match reduce_mul sh with
      | Ok k' => if (k =? k')%nat then Ok k else Raise AssertionError
      | Raise e => Raise e
      end
  end.

(** ** Excitatory population *)

Module QuintanaExcNodes.

(** Keyword arguments of [__init__] that the class itself stores. *)
Record args : Type := {
  a_n : option nat;
  a_shape : option (list nat);
  a_rest : Q;
  a_reset : Q;
  a_thresh : Q;
  a_refrac : Q;
  a_tc_decay : Q;
  a_theta_plus : Q;
  a_tc_theta_decay : Q;
  a_R : Q;
  a_tau_inc : Q;
  a_tau_dec : Q;
  a_lbound : option Q
}.

Definition defaults : args := {|
  a_n := None;
  a_shape := None;
  a_rest := -65.0;
  a_reset := -65.0;
  a_thresh := -52.0;
  a_refrac := 2;
  a_tc_decay := 100.0;
  a_theta_plus := 0.05;
  a_tc_theta_decay := 2e7;
  a_R := 32;
  a_tau_inc := 10;
  a_tau_dec := 5;
  a_lbound := Some (-100.0)
|}.

(** The buffers that [compute_decays] sets. *)
Record decays : Type := {
  decay : Q;
  theta_decay : Q;
  C : Q;
  I_decay : Q;
  X_decay : Q
}.

Record t : Type := {
  n : nat;
  learning : bool;
  dt : option Q;
  rest : Q;
  reset : Q;
  thresh : Q;
  refrac : Q;
  tc_decay : Q;
  theta_plus : Q;
  tc_theta_decay : Q;
  R : Q;
  tau_inc : Q;
  tau_dec : Q;
  lbound : option Q;
  dec : decays;
  v : tensor;
  theta : vec;
  refrac_count : tensor;
  I : tensor;
  X : tensor;
  s : mask
}.

(** [__init__].  The decay buffers are allocated with [torch.empty_like],
    whose contents are unspecified: [uninit] stands for them.  The state
    buffers start empty, [theta] starts at 20 for every neuron, and the
    host leaves [dt] unset and [learning] on. *)
Definition init (a : args) (uninit : decays) : result t :=
  match Nodes_init (a_n a) (a_shape a) with
  | Raise e => Raise e
  | Ok k =>
      Ok {| n := k;
            learning := true;
            dt := None;
            rest := a_rest a;
            reset := a_reset a;
            thresh := a_thresh a;
            refrac := a_refrac a;
            tc_decay := a_tc_decay a;
            theta_plus := a_theta_plus a;
            tc_theta_decay := a_tc_theta_decay a;
            R := a_R a;
            tau_inc := a_tau_inc a;
            tau_dec := a_tau_dec a;
            lbound := a_lbound a;
            dec := uninit;
            v := [];
            theta := map (fun one => one * 20) (repeat 1 k);
            refrac_count := [];
            I := [];
            X := [];
            s := [] |}
  end.

(** [train(mode)] of the host: sets the [learning] flag. *)
Definition train (self : t) (mode : bool) : t :=
  {| n := n self; learning := mode; dt := dt self;
     rest := rest self; reset := reset self; thresh := thresh self;
     refrac := refrac self; tc_decay := tc_decay self;
     theta_plus := theta_plus self; tc_theta_decay := tc_theta_decay self;
     R := R self; tau_inc := tau_inc self; tau_dec := tau_dec self;
     lbound := lbound self; dec := dec self;
     v := v self; theta := theta self; refrac_count := refrac_count self;
     I := I self; X := X self; s := s self |}.

(** The buffers and the input all have shape [batch, n], [theta] has [n]
    entries.  The buffers that [set_batch_size] allocates always do; for
    other shapes torch raises (or broadcasts, a path that is not
    modelled). *)
Definition shapes_ok (self : t) (x : tensor) : bool :=
  let b := length (v self) in
  has_shape b (n self) (v self)
  && has_shape b (n self) (I self)
  && has_shape b (n self) (X self)
  && has_shape b (n self) (refrac_count self)
  && has_shape b (n self) x
  && (length (theta self) =? n self)%nat.

Definition forward (self : t) (x : tensor) : result (t * tensor) :=
  match dt self with
  | None => Raise TypeError
  | Some dt_ =>
    if shapes_ok self x then
      let d := dec self in
      (* Decay voltages and adaptive thresholds. *)
      let v1 := tmap2 (fun v_ i_ => v_ + decay d * (rest self - v_ + R self * i_))
                      (v self) (I self) in
      let I1 := tmap2 (fun i_ x_ => i_ + I_decay d * (C d * x_ - i_))
                      (I self) (X self) in
      let X1 := tmap (fun x_ => x_ - X_decay d * x_) (X self) in
      let theta1 :=
        if learning self
        then map (fun th => th - theta_decay d * th) (theta self)
        else theta self in
      (* Integrate inputs. *)
      let x1 := masked_fill x (tmap (fun c => Qgt_bool c 0) (refrac_count self)) 0 in
      (* Decrement refractory counters. *)
      let rc1 := tmap (fun c => c - dt_) (refrac_count self) in
      let X2 := tmap2 Qplus X1 x1 in
      (* Check for spiking neurons. *)
      let s1 := tmap_row (fun v_ th => Qge_bool v_ (thresh self + th)) v1 theta1 in
      (* Refractoriness, voltage reset, and adaptive thresholds. *)
      let rc2 := masked_fill rc1 s1 (refrac self) in
      let v2 := masked_fill v1 s1 (reset self) in
      let theta2 :=
        if learning self
        then
          let scaling_factor := 1 in
          map2 (fun th k => th + scaling_factor * theta_plus self * k)
               theta1 (sum0 (n self) (tmap float s1))
        else theta1 in
      (* voltage clipping to lowerbound *)
      let v3 :=
        match lbound self with
        | Some lb => masked_fill v2 (tmap (fun v_ => Qlt_bool v_ lb) v2) lb
        | None => v2
        end in
      Ok ({| n := n self; learning := learning self; dt := dt self;
             rest := rest self; reset := reset self; thresh := thresh self;
             refrac := refrac self; tc_decay := tc_decay self;
             theta_plus := theta_plus self;
             tc_theta_decay := tc_theta_decay self;
             R := R self; tau_inc := tau_inc self; tau_dec := tau_dec self;
             lbound := lbound self; dec := dec self;
             v := v3; theta := theta2; refrac_count := rc2;
             I := I1; X := X2; s := s1 |}, x1)
    else Raise RuntimeError
  end.

(** [reset_state_variables]; the host zeroes the spike buffer. *)
Definition reset_state_variables (self : t) : t :=
  {| n := n self; learning := learning self; dt := dt self;
     rest := rest self; reset := reset self; thresh := thresh self;
     refrac := refrac self; tc_decay := tc_decay self;
     theta_plus := theta_plus self; tc_theta_decay := tc_theta_decay self;
     R := R self; tau_inc := tau_inc self; tau_dec := tau_dec self;
     lbound := lbound self; dec := dec self;
     v := fill (v self) (rest self);
     theta := theta self;
     refrac_count := fill (refrac_count self) 0;
     I := fill (I self) 0;
     X := fill (X self) 0;
     s := fill (s self) false |}.

Section Power.

(** Torch's element-wise power.  The exponent is a quotient of time
    constants, so the result is in general irrational; the operation is
    a parameter of [compute_decays]. *)
Variable pow : Q -> Q -> Q.

(** [compute_decays]; the host stores [dt].  Division of rationals is
    total with [x / 0 == 0], where the program's tensors would hold an
    infinity or NaN: the values below mean what the program computes
    only for nonzero denominators. *)
Definition compute_decays (self : t) (dt_ : Q) : t :=
  {| n := n self; learning := learning self; dt := Some dt_;
     rest := rest self; reset := reset self; thresh := thresh self;
     refrac := refrac self; tc_decay := tc_decay self;
     theta_plus := theta_plus self; tc_theta_decay := tc_theta_decay self;
     R := R self; tau_inc := tau_inc self; tau_dec := tau_dec self;
     lbound := lbound self;
     dec := {| decay := dt_ / tc_decay self;
               theta_decay := dt_ / tc_theta_decay self;
               C := pow (tau_dec self / tau_inc self)
                        (tau_inc self / (tau_dec self - tau_inc self));
               I_decay := dt_ / tau_inc self;
               X_decay := dt_ / tau_dec self |};
     v := v self; theta := theta self; refrac_count := refrac_count self;
     I := I self; X := X self; s := s self |}.

End Power.

(** [set_batch_size]; the host reallocates the spike buffer. *)
Definition set_batch_size (self : t) (batch_size : nat) : t :=
  {| n := n self; learning := learning self; dt := dt self;
     rest := rest self; reset := reset self; thresh := thresh self;
     refrac := refrac self; tc_decay := tc_decay self;
     theta_plus := theta_plus self; tc_theta_decay := tc_theta_decay self;
     R := R self; tau_inc := tau_inc self; tau_dec := tau_dec self;
     lbound := lbound self; dec := dec self;
     v := tmap (fun one => rest self * one) (full batch_size (n self) 1);
     theta := theta self;
     refrac_count := full batch_size (n self) 0;
     I := full batch_size (n self) 0;
     X := full batch_size (n self) 0;
     s := full batch_size (n self) false |}.

End QuintanaExcNodes.

(** ** Output / supervision population *)

Module QuintanaSLNodes.

Record args : Type := {
  a_n : option nat;
  a_shape : option (list nat);
  a_rest : Q;
  a_reset : Q;
  a_thresh : Q;
  a_tc_decay : Q;
  a_R : Q;
  a_tau_inc : Q;
  a_tau_dec : Q
}.

Definition defaults : args := {|
  a_n := None;
  a_shape := None;
  a_rest := -60.0;
  a_reset := -45.0;
  a_thresh := -40.0;
  a_tc_decay := 10.0;
  a_R := 32;
  a_tau_inc := 10;
  a_tau_dec := 5
|}.

Record decays : Type := {
  decay : Q;
  C : Q;
  I_decay : Q;
  X_decay : Q
}.

Record t : Type := {
  n : nat;
  learning : bool;
  dt : option Q;
  rest : Q;
  reset : Q;
  thresh : Q;
  tc_decay : Q;
  R : Q;
  tau_inc : Q;
  tau_dec : Q;
  dec : decays;
  v : tensor;
  I : tensor;
  X : tensor;
  s : mask
}.

(** [__init__], with [uninit] for the contents of the [torch.empty_like]
    buffers. *)
Definition init (a : args) (uninit : decays) : result t :=
  match Nodes_init (a_n a) (a_shape a) with
  | Raise e => Raise e
  | Ok k =>
      Ok {| n := k;
            learning := true;
            dt := None;
            rest := a_rest a;
            reset := a_reset a;
            thresh := a_thresh a;
            tc_decay := a_tc_decay a;
            R := a_R a;
            tau_inc := a_tau_inc a;
            tau_dec := a_tau_dec a;
            dec := uninit;
            v := [];
            I := [];
            X := [];
            s := [] |}
  end.

Definition train (self : t) (mode : bool) : t :=
  {| n := n self; learning := mode; dt := dt self;
     rest := rest self; reset := reset self; thresh := thresh self;
     tc_decay := tc_decay self; R := R self;
     tau_inc := tau_inc self; tau_dec := tau_dec self; dec := dec self;
     v := v self; I := I self; X := X self; s := s self |}.

(** Shapes that the integration branch of [forward] needs. *)
Definition shapes_ok (self : t) (x : tensor) : bool :=
  let b := length (v self) in
  has_shape b (n self) (v self)
  && has_shape b (n self) (I self)
  && has_shape b (n self) (X self)
  && has_shape b (n self) x.

(** The membrane update of [forward], run when the population is not
    learning. *)
Definition integrate (self : t) (x : tensor) : tensor * tensor * tensor :=
  let d := dec self in
  let v1 := tmap2 (fun v_ i_ => v_ + decay d * (rest self - v_ + R self * i_))
                  (v self) (I self) in
  let I1 := tmap2 (fun i_ x_ => i_ + I_decay d * (C d * x_ - i_))
                  (I self) (X self) in
  let X1 := tmap (fun x_ => x_ - X_decay d * x_) (X self) in
  (* Integrate inputs. *)
  let X2 := tmap2 Qplus X1 x in
  (v1, I1, X2).

(** The spike check and voltage reset of [forward], run in both modes. *)
Definition fire (self : t) (v1 I1 X1 : tensor) : t :=
  (* Check for spiking neurons. *)
  let s1 := tmap (fun v_ => Qge_bool v_ (thresh self)) v1 in
  (* Voltage reset. *)
  let v2 := masked_fill v1 s1 (reset self) in
  {| n := n self; learning := learning self; dt := dt self;
     rest := rest self; reset := reset self; thresh := thresh self;
     tc_decay := tc_decay self; R := R self;
     tau_inc := tau_inc self; tau_dec := tau_dec self; dec := dec self;
     v := v2; I := I1; X := X1; s := s1 |}.

Definition forward (self : t) (x : tensor) : result (t * tensor) :=
  if negb (learning self) then
    if shapes_ok self x then
      let '(v1, I1, X2) := integrate self x in
      Ok (fire self v1 I1 X2, x)
    else Raise RuntimeError
  else
    Ok (fire self (v self) (I self) (X self), x).

Definition reset_state_variables (self : t) : t :=
  {| n := n self; learning := learning self; dt := dt self;
     rest := rest self; reset := reset self; thresh := thresh self;
     tc_decay := tc_decay self; R := R self;
     tau_inc := tau_inc self; tau_dec := tau_dec self; dec := dec self;
     v := fill (v self) (rest self);
     I := fill (I self) 0;
     X := fill (X self) 0;
     s := fill (s self) false |}.

Section Power.

Variable pow : Q -> Q -> Q.

Definition compute_decays (self : t) (dt_ : Q) : t :=
  {| n := n self; learning := learning self; dt := Some dt_;
     rest := rest self; reset := reset self; thresh := thresh self;
     tc_decay := tc_decay self; R := R self;
     tau_inc := tau_inc self; tau_dec := tau_dec self;
     dec := {| decay := dt_ / tc_decay self;
               C := pow (tau_dec self / tau_inc self)
                        (tau_inc self / (tau_dec self - tau_inc self));
               I_decay := dt_ / tau_inc self;
               X_decay := dt_ / tau_dec self |};
     v := v self; I := I self; X := X self; s := s self |}.

End Power.

Definition set_batch_size (self : t) (batch_size : nat) : t :=
  {| n := n self; learning := learning self; dt := dt self;
     rest := rest self; reset := reset self; thresh := thresh self;
     tc_decay := tc_decay self; R := R self;
     tau_inc := tau_inc self; tau_dec := tau_dec self; dec := dec self;
     v := tmap (fun one => rest self * one) (full batch_size (n self) 1);
     I := full batch_size (n self) 0;
     X := full batch_size (n self) 0;
     s := full batch_size (n self) false |}.

End QuintanaSLNodes.

(** ** A power for examples

    Exact on integral exponents, which is all the examples use (the default
    time constants give exponent [-2]). *)
Definition Qpow_int (b e : Q) : Q := Qpower b (Qnum e / Zpos (Qden e))%Z.

(** ** Populations used in the examples

    [Network.add_layer] of the host computes a layer's decays for the
    network's [dt] and then sets its batch size; the populations below are
    built that way from a constructor call. *)

Definition exc_uninit : QuintanaExcNodes.decays :=
  {| QuintanaExcNodes.decay := 0; QuintanaExcNodes.theta_decay := 0;
     QuintanaExcNodes.C := 0; QuintanaExcNodes.I_decay := 0;
     QuintanaExcNodes.X_decay := 0 |}.

Definition sl_uninit : QuintanaSLNodes.decays :=
  {| QuintanaSLNodes.decay := 0; QuintanaSLNodes.C := 0;
     QuintanaSLNodes.I_decay := 0; QuintanaSLNodes.X_decay := 0 |}.

Definition add_exc_layer (a : QuintanaExcNodes.args) (dt_ : Q)
  (batch_size : nat) : result QuintanaExcNodes.t :=
  match QuintanaExcNodes.init a exc_uninit with
  | Ok self =>
      Ok (QuintanaExcNodes.set_batch_size
            (QuintanaExcNodes.compute_decays Qpow_int self dt_) batch_size)
  | Raise e => Raise e
  end.

Definition add_sl_layer (a : QuintanaSLNodes.args) (dt_ : Q)
  (batch_size : nat) : result QuintanaSLNodes.t :=
  match QuintanaSLNodes.init a sl_uninit with
  | Ok self =>
      Ok (QuintanaSLNodes.set_batch_size
            (QuintanaSLNodes.compute_decays Qpow_int self dt_) batch_size)
  | Raise e => Raise e
  end.

(** The hidden layer of [Quintana2020] (src/model.py), with two neurons. *)
Definition hidden_args : QuintanaExcNodes.args :=
  {| QuintanaExcNodes.a_n := Some 2%nat;
     QuintanaExcNodes.a_shape := None;
     QuintanaExcNodes.a_rest := 0.0;
     QuintanaExcNodes.a_reset := 0.0;
     QuintanaExcNodes.a_thresh := 120.0;
     QuintanaExcNodes.a_refrac := 2;
     QuintanaExcNodes.a_tc_decay := 100.0;
     QuintanaExcNodes.a_theta_plus := 0.05;
     QuintanaExcNodes.a_tc_theta_decay := 2e7;
     QuintanaExcNodes.a_R := 32;
     QuintanaExcNodes.a_tau_inc := 10;
     QuintanaExcNodes.a_tau_dec := 5;
     QuintanaExcNodes.a_lbound := Some (-100.0) |}.

(** The constructor's defaults for one neuron, with the arguments that the
    examples vary. *)
Definition exc_args (thresh_ tc_theta_decay_ tau_inc_ : Q) (lbound_ : option Q)
  : QuintanaExcNodes.args :=
  {| QuintanaExcNodes.a_n := Some 1%nat;
     QuintanaExcNodes.a_shape := None;
     QuintanaExcNodes.a_rest := -65.0;
     QuintanaExcNodes.a_reset := -65.0;
     QuintanaExcNodes.a_thresh := thresh_;
     QuintanaExcNodes.a_refrac := 2;
     QuintanaExcNodes.a_tc_decay := 100.0;
     QuintanaExcNodes.a_theta_plus := 0.05;
     QuintanaExcNodes.a_tc_theta_decay := tc_theta_decay_;
     QuintanaExcNodes.a_R := 32;
     QuintanaExcNodes.a_tau_inc := tau_inc_;
     QuintanaExcNodes.a_tau_dec := 5;
     QuintanaExcNodes.a_lbound := lbound_ |}.

Definition sl_args (rest_ tau_inc_ : Q) : QuintanaSLNodes.args :=
  {| QuintanaSLNodes.a_n := Some 1%nat;
     QuintanaSLNodes.a_shape := None;
     QuintanaSLNodes.a_rest := rest_;
     QuintanaSLNodes.a_reset := -45.0;
     QuintanaSLNodes.a_thresh := -40.0;
     QuintanaSLNodes.a_tc_decay := 10.0;
     QuintanaSLNodes.a_R := 32;
     QuintanaSLNodes.a_tau_inc := tau_inc_;
     QuintanaSLNodes.a_tau_dec := 5 |}.

(** ** One component of a step of the excitatory population

    What [forward] does to a single voltage, written on numbers: the leaky
    update, the threshold decay, the clipping, and the count of the batch
    elements in which neuron [i] spiked (entry [i] of [s.float().sum(0)]). *)

Definition leak (self : QuintanaExcNodes.t) (v_ i_ : Q) : Q :=
  v_ + QuintanaExcNodes.decay (QuintanaExcNodes.dec self) *
       (QuintanaExcNodes.rest self - v_ + QuintanaExcNodes.R self * i_).

Definition theta_decayed (self : QuintanaExcNodes.t) (th : Q) : Q :=
  if QuintanaExcNodes.learning self
  then th - QuintanaExcNodes.theta_decay (QuintanaExcNodes.dec self) * th
  else th.

Definition clip (lbound : option Q) (w : Q) : Q :=
  match lbound with
  | Some lb => if Qlt_bool w lb then lb else w
  | None => w
  end.


(** ** The recurrent inhibitory weights of the network (src/model.py)

    [Quintana2020.__init__] builds the weight matrix of the connection from
    the excitatory layer to itself as
    [-inh * (ones(n, n) - diag(ones(n)))] and hands it to the host's
    [Connection] with the bounds [wmin = -inh] and [wmax = 0]. *)

Module Quintana2020.

(** [torch.ones(rows, cols)] *)
Definition ones (rows cols : nat) : tensor := full rows cols 1.

(** [torch.diag(d)] of a one-dimensional [d]: the square matrix with [d] on
    its diagonal and zero elsewhere. *)
Definition diag (d : vec) : tensor :=
  map (fun i =>
         map (fun j => if (i =? j)%nat then nth i d 0 else 0)
             (seq 0 (length d)))
      (seq 0 (length d)).

Definition recurrent_w (inh : Q) (n_neurons : nat) : tensor :=
  tmap (fun e => - inh * e)
       (tmap2 Qminus (ones n_neurons n_neurons) (diag (repeat 1 n_neurons))).

Definition recurrent_wmin (inh : Q) : Q := - inh.
Definition recurrent_wmax : Q := 0.

End Quintana2020.

(** ** Binary32 numbers

    The buffers of the program are [torch.float32] tensors.  Where a property
    depends on rounding, overflow or NaN, the step is also modelled on IEEE
    754 binary32 numbers, with the Standard Library's executable
    specification of the operations (round to nearest, ties to even).  A
    comparison with NaN is false, as in the program. *)

Module F32.

Definition prec : Z := 24.
Definition emax : Z := 128.

Definition t : Type := spec_float.

Definition add (x y : t) : t := SFadd prec emax x y.
Definition sub (x y : t) : t := SFsub prec emax x y.
Definition mul (x y : t) : t := SFmul prec emax x y.
Definition div (x y : t) : t := SFdiv prec emax x y.

(** [a < b], [a >= b] and [a > b] as the program writes them. *)
Definition lt (a b : t) : bool := SFltb a b.
Definition ge (a b : t) : bool := SFleb b a.
Definition gt (a b : t) : bool := SFltb b a.

Definition is_nan (x : t) : bool :=
  match x with
  | S754_nan => true
  | _ => false
  end.

Definition zero : t := S754_zero false.

(** An integer, and a decimal literal [p / q], rounded to binary32 (the
    quotient is rounded once when [p] and [q] are binary32 numbers, as they
    are for every literal used below). *)
Definition of_Z (z : Z) : t := binary_normalize prec emax z 0 false.
Definition of_Q (q : Q) : t := div (of_Z (Qnum q)) (of_Z (Zpos (Qden q))).

(** [s.float()] and [t.sum(0)] *)
Definition float (c : bool) : t := if c then of_Z 1 else zero.
Definition sum0 (n : nat) (rows : list (list t)) : list t :=
  fold_right (map2 add) (repeat zero n) rows.

(** The integer that a number is, if it is one. *)
Definition to_Z (x : t) : option Z :=
  match x with
  | S754_zero _ => Some 0%Z
  | S754_finite s m e =>
      let z := (if s then Zneg m else Zpos m) in
      if (0 <=? e)%Z then Some (z * 2 ^ e)%Z
      else if (Zpos m mod 2 ^ (- e) =? 0)%Z then Some (z / 2 ^ (- e))%Z
      else None
  | _ => None
  end.

(** A power for examples: exact whenever the exponent is an integer and the
    repeated products are exact, which covers the default time constants
    ([0.5 ** -2 = 4]). *)
Definition pow_int (b e : t) : t :=
  match to_Z e with
  | Some (Zpos k) => Pos.iter (mul b) (of_Z 1) k
  | Some (Zneg k) => div (of_Z 1) (Pos.iter (mul b) (of_Z 1) k)
  | Some Z0 => of_Z 1
  | None => S754_nan
  end.

End F32.

(** ** Excitatory population on binary32 numbers

    The methods of [QuintanaExcNodes] once more, operation for operation,
    with every buffer and parameter a binary32 number ([lbound], a Python
    float in the program, is taken at its binary32 value, with which the
    program compares and fills). *)

Module QuintanaExcNodes32.

Record args : Type := {
  a_n : option nat;
  a_shape : option (list nat);
  a_rest : F32.t;
  a_reset : F32.t;
  a_thresh : F32.t;
  a_refrac : F32.t;
  a_tc_decay : F32.t;
  a_theta_plus : F32.t;
  a_tc_theta_decay : F32.t;
  a_R : F32.t;
  a_tau_inc : F32.t;
  a_tau_dec : F32.t;
  a_lbound : option F32.t
}.

Record decays : Type := {
  decay : F32.t;
  theta_decay : F32.t;
  C : F32.t;
  I_decay : F32.t;
  X_decay : F32.t
}.

Record t : Type := {
  n : nat;
  learning : bool;
  dt : option F32.t;
  rest : F32.t;
  reset : F32.t;
  thresh : F32.t;
  refrac : F32.t;
  tc_decay : F32.t;
  theta_plus : F32.t;
  tc_theta_decay : F32.t;
  R : F32.t;
  tau_inc : F32.t;
  tau_dec : F32.t;
  lbound : option F32.t;
  dec : decays;
  v : list (list F32.t);
  theta : list F32.t;
  refrac_count : list (list F32.t);
  I : list (list F32.t);
  X : list (list F32.t);
  s : mask
}.

Definition init (a : args) (uninit : decays) : result t :=
  match Nodes_init (a_n a) (a_shape a) with
  | Raise e => Raise e
  | Ok k =>
      Ok {| n := k;
            learning := true;
            dt := None;
            rest := a_rest a;
            reset := a_reset a;
            thresh := a_thresh a;
            refrac := a_refrac a;
            tc_decay := a_tc_decay a;
            theta_plus := a_theta_plus a;
            tc_theta_decay := a_tc_theta_decay a;
            R := a_R a;
            tau_inc := a_tau_inc a;
            tau_dec := a_tau_dec a;
            lbound := a_lbound a;
            dec := uninit;
            v := [];
            theta := map (fun one => F32.mul one (F32.of_Z 20))
                         (repeat (F32.of_Z 1) k);
            refrac_count := [];
            I := [];
            X := [];
            s := [] |}
  end.

Definition shapes_ok (self : t) (x : list (list F32.t)) : bool :=
  let b := length (v self) in
  has_shape b (n self) (v self)
  && has_shape b (n self) (I self)
  && has_shape b (n self) (X self)
  && has_shape b (n self) (refrac_count self)
  && has_shape b (n self) x
  && (length (theta self) =? n self)%nat.

Definition forward (self : t) (x : list (list F32.t))
  : result (t * list (list F32.t)) :=
  match dt self with
  | None => Raise TypeError
  | Some dt_ =>
    if shapes_ok self x then
      let d := dec self in
      (* Decay voltages and adaptive thresholds. *)
      let v1 := tmap2 (fun v_ i_ =>
                         F32.add v_ (F32.mul (decay d)
                           (F32.add (F32.sub (rest self) v_)
                                    (F32.mul (R self) i_))))
                      (v self) (I self) in
      let I1 := tmap2 (fun i_ x_ =>
                         F32.add i_ (F32.mul (I_decay d)
                           (F32.sub (F32.mul (C d) x_) i_)))
                      (I self) (X self) in
      let X1 := tmap (fun x_ => F32.sub x_ (F32.mul (X_decay d) x_)) (X self) in
      let theta1 :=
        if learning self
        then map (fun th => F32.sub th (F32.mul (theta_decay d) th))
                 (theta self)
        else theta self in
      (* Integrate inputs. *)
      let x1 := masked_fill x (tmap (fun c => F32.gt c F32.zero)
                                    (refrac_count self)) F32.zero in
      (* Decrement refractory counters. *)
      let rc1 := tmap (fun c => F32.sub c dt_) (refrac_count self) in
      let X2 := tmap2 F32.add X1 x1 in
      (* Check for spiking neurons. *)
      let s1 := tmap_row (fun v_ th => F32.ge v_ (F32.add (thresh self) th))
                         v1 theta1 in
      (* Refractoriness, voltage reset, and adaptive thresholds. *)
      let rc2 := masked_fill rc1 s1 (refrac self) in
      let v2 := masked_fill v1 s1 (reset self) in
      let theta2 :=
        if learning self
        then
          let scaling_factor := F32.of_Z 1 in
          map2 (fun th k =>
                  F32.add th (F32.mul (F32.mul scaling_factor (theta_plus self)) k))
               theta1 (F32.sum0 (n self) (tmap F32.float s1))
        else theta1 in
      (* voltage clipping to lowerbound *)
      let v3 :=
        match lbound self with
        | Some lb => masked_fill v2 (tmap (fun v_ => F32.lt v_ lb) v2) lb
        | None => v2
        end in
      Ok ({| n := n self; learning := learning self; dt := dt self;
             rest := rest self; reset := reset self; thresh := thresh self;
             refrac := refrac self; tc_decay := tc_decay self;
             theta_plus := theta_plus self;
             tc_theta_decay := tc_theta_decay self;
             R := R self; tau_inc := tau_inc self; tau_dec := tau_dec self;
             lbound := lbound self; dec := dec self;
             v := v3; theta := theta2; refrac_count := rc2;
             I := I1; X := X2; s := s1 |}, x1)
    else Raise RuntimeError
  end.

Section Power.

Variable pow : F32.t -> F32.t -> F32.t.

Definition compute_decays (self : t) (dt_ : F32.t) : t :=
  {| n := n self; learning := learning self; dt := Some dt_;
     rest := rest self; reset := reset self; thresh := thresh self;
     refrac := refrac self; tc_decay := tc_decay self;
     theta_plus := theta_plus self; tc_theta_decay := tc_theta_decay self;
     R := R self; tau_inc := tau_inc self; tau_dec := tau_dec self;
     lbound := lbound self;
     dec := {| decay := F32.div dt_ (tc_decay self);
               theta_decay := F32.div dt_ (tc_theta_decay self);
               C := pow (F32.div (tau_dec self) (tau_inc self))
                        (F32.div (tau_inc self)
                                 (F32.sub (tau_dec self) (tau_inc self)));
               I_decay := F32.div dt_ (tau_inc self);
               X_decay := F32.div dt_ (tau_dec self) |};
     v := v self; theta := theta self; refrac_count := refrac_count self;
     I := I self; X := X self; s := s self |}.

End Power.

Definition set_batch_size (self : t) (batch_size : nat) : t :=
  {| n := n self; learning := learning self; dt := dt self;
     rest := rest self; reset := reset self; thresh := thresh self;
     refrac := refrac self; tc_decay := tc_decay self;
     theta_plus := theta_plus self; tc_theta_decay := tc_theta_decay self;
     R := R self; tau_inc := tau_inc self; tau_dec := tau_dec self;
     lbound := lbound self; dec := dec self;
     v := tmap (fun one => F32.mul (rest self) one)
               (full batch_size (n self) (F32.of_Z 1));
     theta := theta self;
     refrac_count := full batch_size (n self) F32.zero;
     I := full batch_size (n self) F32.zero;
     X := full batch_size (n self) F32.zero;
     s := full batch_size (n self) false |}.

End QuintanaExcNodes32.

(** The arguments of a constructor call, each rounded to binary32, and the
    population that the network makes of them. *)
Definition args32 (a : QuintanaExcNodes.args) : QuintanaExcNodes32.args :=
  {| QuintanaExcNodes32.a_n := QuintanaExcNodes.a_n a;
     QuintanaExcNodes32.a_shape := QuintanaExcNodes.a_shape a;
     QuintanaExcNodes32.a_rest := F32.of_Q (QuintanaExcNodes.a_rest a);
     QuintanaExcNodes32.a_reset := F32.of_Q (QuintanaExcNodes.a_reset a);
     QuintanaExcNodes32.a_thresh := F32.of_Q (QuintanaExcNodes.a_thresh a);
     QuintanaExcNodes32.a_refrac := F32.of_Q (QuintanaExcNodes.a_refrac a);
     QuintanaExcNodes32.a_tc_decay := F32.of_Q (QuintanaExcNodes.a_tc_decay a);
     QuintanaExcNodes32.a_theta_plus :=
       F32.of_Q (QuintanaExcNodes.a_theta_plus a);
     QuintanaExcNodes32.a_tc_theta_decay :=
       F32.of_Q (QuintanaExcNodes.a_tc_theta_decay a);
     QuintanaExcNodes32.a_R := F32.of_Q (QuintanaExcNodes.a_R a);
     QuintanaExcNodes32.a_tau_inc := F32.of_Q (QuintanaExcNodes.a_tau_inc a);
     QuintanaExcNodes32.a_tau_dec := F32.of_Q (QuintanaExcNodes.a_tau_dec a);
     QuintanaExcNodes32.a_lbound :=
       option_map F32.of_Q (QuintanaExcNodes.a_lbound a) |}.

Definition exc32_uninit : QuintanaExcNodes32.decays :=
  {| QuintanaExcNodes32.decay := F32.zero;
     QuintanaExcNodes32.theta_decay := F32.zero;
     QuintanaExcNodes32.C := F32.zero;
     QuintanaExcNodes32.I_decay := F32.zero;
     QuintanaExcNodes32.X_decay := F32.zero |}.

Definition add_exc32_layer (a : QuintanaExcNodes.args) (dt_ : Q)
  (batch_size : nat) : result QuintanaExcNodes32.t :=
  match QuintanaExcNodes32.init (args32 a) exc32_uninit with
  | Ok self =>
      Ok (QuintanaExcNodes32.set_batch_size
            (QuintanaExcNodes32.compute_decays F32.pow_int self (F32.of_Q dt_))
            batch_size)
  | Raise e => Raise e
  end.

(** ** A population ready to be stepped

    What the host's [Network.add_layer] establishes before the simulation
    loop calls [forward]: the decays are computed and the buffers have the
    shape [batch_size, n], for a batch of at least one element (a buffer
    with no row is also what stands for the buffers that [__init__]
    registers and nothing has allocated yet, on which the program's
    [forward] raises). *)

Definition exc_ready (batch_size : nat) (self : QuintanaExcNodes.t) : Prop :=
  (0 < batch_size)%nat /\
  (exists h, QuintanaExcNodes.dt self = Some h) /\
  length (QuintanaExcNodes.v self) = batch_size /\
  QuintanaExcNodes.shapes_ok self (full batch_size (QuintanaExcNodes.n self) 0)
    = true.

(** ** Proof tactics *)

(** Unfold a call of [forward] that returned. *)
Ltac forward_inv H :=
  unfold QuintanaExcNodes.forward in H;
  let h := fresh "dt_" in
  let Hdt := fresh "Hdt" in
  let Hs := fresh "Hshapes" in
  destruct (QuintanaExcNodes.dt _) as [h|] eqn:Hdt; [|discriminate H];
  destruct (QuintanaExcNodes.shapes_ok _ _) eqn:Hs; [|discriminate H];
  injection H as <- <-.

(** Examples: build the population, run the step, keep the equation. *)
Ltac run_step Hf :=
  match goal with
  | |- ?P /\ _ =>
      assert (Hf : P) by (vm_compute; reflexivity); split; [exact Hf|]
  end.

Ltac exc_step Hf :=
  eexists _, _, _; split; [vm_compute; reflexivity|]; run_step Hf.

(** * Properties *)

(** ** Comparisons *)

Lemma Qlt_bool_iff (x y : Q) : Qlt_bool x y = true <-> x < y.
Proof. unfold Qlt_bool, Qlt. apply Z.ltb_lt. Qed.

Lemma Qlt_bool_false (x y : Q) : Qlt_bool x y = false -> y <= x.
Proof. unfold Qlt_bool, Qle. intro H. apply Z.ltb_ge in H. exact H. Qed.

Lemma Qge_bool_iff (a b : Q) : Qge_bool a b = true <-> b <= a.
Proof. unfold Qge_bool. apply Qle_bool_iff. Qed.

Lemma Qge_bool_false (a b : Q) : Qge_bool a b = false -> a < b.
Proof.
  intro H. apply Qnot_le_lt. intro Hle.
  apply Qge_bool_iff in Hle. congruence.
Qed.

Lemma Qgt_bool_iff (a b : Q) : Qgt_bool a b = true <-> b < a.
Proof. unfold Qgt_bool. apply Qlt_bool_iff. Qed.

Lemma Qgt_bool_le (a b : Q) : a <= b -> Qgt_bool a b = false.
Proof.
  intro H. destruct (Qgt_bool a b) eqn:E; auto.
  apply Qgt_bool_iff in E. exfalso. eapply Qlt_not_le; eassumption.
Qed.

(** ** Lists and tensors *)

Section Lists.

Context {A B C : Type}.

Lemma map2_length (f : A -> B -> C) (xs : list A) (ys : list B) :
  length (map2 f xs ys) = Nat.min (length xs) (length ys).
Proof.
  revert ys. induction xs as [|a xs IH]; intros [|b ys]; simpl; auto.
Qed.

Lemma nth_error_map2 (f : A -> B -> C) (xs : list A) (ys : list B) (i : nat) :
  nth_error (map2 f xs ys) i =
  match nth_error xs i, nth_error ys i with
  | Some a, Some b => Some (f a b)
  | _, _ => None
  end.
Proof.
  revert ys i. induction xs as [|a xs IH]; intros [|b ys] [|i]; simpl; auto.
  - destruct (nth_error xs i); reflexivity.
Qed.

Lemma map2_map_diag (f : A -> B -> C) (g : A -> B) (xs : list A) :
  map2 f xs (map g xs) = map (fun a => f a (g a)) xs.
Proof. induction xs as [|a xs IH]; simpl; congruence. Qed.

Lemma Forall_map2 (P : C -> Prop) (f : A -> B -> C) (xs : list A) (ys : list B) :
  (forall a b, In a xs -> In b ys -> P (f a b)) -> Forall P (map2 f xs ys).
Proof.
  revert ys. induction xs as [|a xs IH]; intros [|b ys] H; simpl; auto.
  constructor.
  - apply H; simpl; auto.
  - apply IH. intros; apply H; simpl; auto.
Qed.

End Lists.

Section Tensors.

Context {A B C : Type}.

Lemma tget_tmap (f : A -> B) (t : list (list A)) (b i : nat) :
  tget (tmap f t) b i = option_map f (tget t b i).
Proof.
  unfold tget, tmap. rewrite nth_error_map.
  destruct (nth_error t b) as [r|]; simpl; auto.
  apply nth_error_map.
Qed.

Lemma tget_tmap2 (f : A -> B -> C) (t : list (list A)) (u : list (list B))
  (b i : nat) :
  tget (tmap2 f t u) b i =
  match tget t b i, tget u b i with
  | Some a, Some c => Some (f a c)
  | _, _ => None
  end.
Proof.
  unfold tget, tmap2. rewrite nth_error_map2.
  destruct (nth_error t b) as [r|]; auto.
  destruct (nth_error u b) as [r'|].
  - apply nth_error_map2.
  - destruct (nth_error r i); reflexivity.
Qed.

Lemma tget_tmap_row (f : A -> B -> C) (t : list (list A)) (row : list B)
  (b i : nat) :
  tget (tmap_row f t row) b i =
  match tget t b i, nth_error row i with
  | Some a, Some c => Some (f a c)
  | _, _ => None
  end.
Proof.
  unfold tget, tmap_row. rewrite nth_error_map.
  destruct (nth_error t b) as [r|]; simpl; auto.
  apply nth_error_map2.
Qed.

Lemma tget_Forall (P : A -> Prop) (t : list (list A)) :
  Forall (Forall P) t <-> forall b i a, tget t b i = Some a -> P a.
Proof.
  unfold tget. split.
  - intros H b i a Hg.
    destruct (nth_error t b) as [r|] eqn:Hr; [|discriminate].
    apply nth_error_In in Hr, Hg.
    rewrite Forall_forall in H. specialize (H r Hr).
    rewrite Forall_forall in H. auto.
  - intro H. apply Forall_forall. intros r Hr. apply Forall_forall.
    intros a Ha.
    apply In_nth_error in Hr, Ha. destruct Hr as [b Hb], Ha as [i Hi].
    apply (H b i). rewrite Hb. exact Hi.
Qed.

Lemma has_shape_spec (bs k : nat) (t : list (list A)) :
  has_shape bs k t = true <->
  length t = bs /\ Forall (fun r => length r = k) t.
Proof.
  unfold has_shape. rewrite andb_true_iff, Nat.eqb_eq, forallb_forall,
    Forall_forall.
  split; intros [H1 H2]; split; auto; intros r Hr.
  - apply Nat.eqb_eq; auto.
  - apply Nat.eqb_eq; auto.
Qed.

Lemma has_shape_tget (bs k : nat) (t : list (list A)) (b i : nat) :
  has_shape bs k t = true ->
  (b < bs)%nat -> (i < k)%nat -> exists a, tget t b i = Some a.
Proof.
  rewrite has_shape_spec. intros [Hl Hr] Hb Hi. unfold tget.
  destruct (nth_error t b) as [r|] eqn:E.
  - apply nth_error_In in E as Hin.
    rewrite Forall_forall in Hr. specialize (Hr r Hin).
    destruct (nth_error r i) as [a|] eqn:E'; eauto.
    apply nth_error_None in E'. lia.
  - apply nth_error_None in E. lia.
Qed.

Lemma tget_has_shape (bs k : nat) (t : list (list A)) (b i : nat) (a : A) :
  has_shape bs k t = true ->
  tget t b i = Some a -> (b < bs)%nat /\ (i < k)%nat.
Proof.
  rewrite has_shape_spec. intros [Hl Hr]. unfold tget.
  destruct (nth_error t b) as [r|] eqn:E; [|discriminate].
  intro Hi.
  assert (Hb : (b < length t)%nat) by (apply nth_error_Some; congruence).
  apply nth_error_In in E.
  rewrite Forall_forall in Hr. specialize (Hr r E).
  assert (Hi' : (i < length r)%nat) by (apply nth_error_Some; congruence).
  lia.
Qed.

End Tensors.

Lemma has_shape_tmap {A B : Type} (f : A -> B) (bs k : nat) (t : list (list A)) :
  has_shape bs k t = true -> has_shape bs k (tmap f t) = true.
Proof.
  rewrite !has_shape_spec. unfold tmap. intros [Hl Hr]. split.
  - now rewrite length_map.
  - apply Forall_map. eapply Forall_impl; [|exact Hr].
    intros r Hk. now rewrite length_map.
Qed.

Lemma has_shape_tmap2 {A B C : Type} (f : A -> B -> C) (bs k : nat)
  (t : list (list A)) (u : list (list B)) :
  has_shape bs k t = true -> has_shape bs k u = true ->
  has_shape bs k (tmap2 f t u) = true.
Proof.
  rewrite !has_shape_spec. unfold tmap2. intros [Hl Hr] [Hl' Hr']. split.
  - rewrite map2_length, Hl, Hl'. apply Nat.min_id.
  - apply Forall_map2. intros r r' Hin Hin'.
    rewrite Forall_forall in Hr, Hr'.
    rewrite map2_length, (Hr r Hin), (Hr' r' Hin'). apply Nat.min_id.
Qed.

Lemma has_shape_tmap_row {A B C : Type} (f : A -> B -> C) (bs k : nat)
  (t : list (list A)) (row : list B) :
  has_shape bs k t = true -> length row = k ->
  has_shape bs k (tmap_row f t row) = true.
Proof.
  rewrite !has_shape_spec. unfold tmap_row. intros [Hl Hr] Hrow. split.
  - now rewrite length_map.
  - apply Forall_map. eapply Forall_impl; [|exact Hr].
    intros r Hk. simpl. rewrite map2_length, Hk, Hrow. apply Nat.min_id.
Qed.

Lemma has_shape_full {A : Type} (bs k : nat) (a : A) :
  has_shape bs k (full bs k a) = true.
Proof.
  apply has_shape_spec. unfold full. split.
  - apply repeat_length.
  - apply Forall_forall. intros r Hr. apply repeat_spec in Hr. subst r.
    apply repeat_length.
Qed.

Lemma tget_masked_fill {A : Type} (t : list (list A)) (m : mask) (value : A)
  (b i : nat) :
  tget (masked_fill t m value) b i =
  match tget t b i, tget m b i with
  | Some a, Some c => Some (if c then value else a)
  | _, _ => None
  end.
Proof. unfold masked_fill. apply tget_tmap2. Qed.

Lemma tget_fill {A : Type} (t : list (list A)) (value : A) (b i : nat) (a : A) :
  tget (fill t value) b i = Some a -> a = value.
Proof.
  unfold fill. rewrite tget_tmap.
  destruct (tget t b i); simpl; congruence.
Qed.

Lemma fill_shape {A : Type} (t : list (list A)) (value : A) :
  map (@length A) (fill t value) = map (@length A) t.
Proof.
  unfold fill, tmap. rewrite map_map. apply map_ext.
  intro r. apply length_map.
Qed.

Lemma Forall_fill {A : Type} (t : list (list A)) (value : A) :
  Forall (Forall (fun a => a = value)) (fill t value).
Proof. apply tget_Forall. intros b i a. apply tget_fill. Qed.

Lemma Forall_repeat {A : Type} (P : A -> Prop) (a : A) (k : nat) :
  P a -> Forall P (repeat a k).
Proof.
  intro H. apply Forall_forall. intros a' Hin.
  apply repeat_spec in Hin. now subst a'.
Qed.

Lemma masked_fill_tmap_diag {A : Type} (t : list (list A)) (g : A -> bool)
  (value : A) :
  masked_fill t (tmap g t) value = tmap (fun a => if g a then value else a) t.
Proof.
  unfold masked_fill, tmap2, tmap.
  rewrite map2_map_diag. apply map_ext. intro r. apply map2_map_diag.
Qed.

Lemma tmap_shape {A B : Type} (f : A -> B) (t : list (list A)) :
  map (@length B) (tmap f t) = map (@length A) t.
Proof.
  unfold tmap. rewrite map_map. apply map_ext. intro r. apply length_map.
Qed.

Lemma masked_fill_shape {A : Type} (bs k : nat) (t : list (list A)) (m : mask)
  (value : A) :
  has_shape bs k t = true -> has_shape bs k m = true ->
  map (@length A) (masked_fill t m value) = map (@length A) t.
Proof.
  rewrite !has_shape_spec. intros [Hl Hr] [Hl' Hr']. subst bs.
  unfold masked_fill, tmap2.
  revert m Hl' Hr'. induction t as [|r t IH]; intros [|r' m] Hl' Hr';
    simpl in *; try reflexivity; try discriminate.
  inversion Hr; inversion Hr'; subst. f_equal.
  - rewrite map2_length. lia.
  - apply IH; auto.
Qed.

(** ** The spike sum over the batch *)



Lemma sum0_length (k : nat) (m : mask) :
  Forall (fun r => length r = k) m -> length (sum0 k (tmap float m)) = k.
Proof.
  unfold sum0, tmap. induction 1 as [|r m Hr Hm IH]; simpl.
  - apply repeat_length.
  - rewrite map2_length, length_map, Hr, IH. apply Nat.min_id.
Qed.



(** ** Clipping *)

Lemma clip_ge (lbound : option Q) (w : Q) :
  (forall lb, lbound = Some lb -> lb <= w) -> clip lbound w = w.
Proof.
  unfold clip. destruct lbound as [lb|]; auto.
  intro H. destruct (Qlt_bool w lb) eqn:E; auto.
  apply Qlt_bool_iff in E. exfalso.
  eapply Qlt_not_le; [exact E|]. now apply H.
Qed.

Lemma clip_lt (lb w : Q) : w < lb -> clip (Some lb) w = lb.
Proof. intro H. unfold clip. apply Qlt_bool_iff in H. now rewrite H. Qed.

(** ** Excitatory population: shapes and totality *)

Lemma has_shape_masked_fill {A : Type} (bs k : nat) (t : list (list A))
  (m : mask) (value : A) :
  has_shape bs k t = true -> has_shape bs k m = true ->
  has_shape bs k (masked_fill t m value) = true.
Proof. unfold masked_fill. apply has_shape_tmap2. Qed.

Lemma length_map_eq {A B : Type} (f : A -> B) (l : list A) (k : nat) :
  length l = k -> length (map f l) = k.
Proof. intro H. now rewrite length_map. Qed.

Create HintDb shapes.

#[local] Hint Resolve has_shape_tmap has_shape_tmap2 has_shape_tmap_row
  has_shape_masked_fill has_shape_full length_map_eq : shapes.

Lemma shapes_ok_spec (self : QuintanaExcNodes.t) (x : tensor) :
  QuintanaExcNodes.shapes_ok self x = true <->
  let b := length (QuintanaExcNodes.v self) in
  let k := QuintanaExcNodes.n self in
  has_shape b k (QuintanaExcNodes.v self) = true /\
  has_shape b k (QuintanaExcNodes.I self) = true /\
  has_shape b k (QuintanaExcNodes.X self) = true /\
  has_shape b k (QuintanaExcNodes.refrac_count self) = true /\
  has_shape b k x = true /\
  length (QuintanaExcNodes.theta self) = k.
Proof.
  unfold QuintanaExcNodes.shapes_ok. cbv zeta.
  rewrite !andb_true_iff, Nat.eqb_eq. tauto.
Qed.

(** A call on a population whose decays are computed and whose buffers have
    the batch shape returns. *)
Lemma forward_returns (self : QuintanaExcNodes.t) (x : tensor) (h : Q) :
  QuintanaExcNodes.dt self = Some h ->
  QuintanaExcNodes.shapes_ok self x = true ->
  exists self' x', QuintanaExcNodes.forward self x = Ok (self', x').
Proof.
  intros Hdt Hs. unfold QuintanaExcNodes.forward. rewrite Hdt, Hs.
  eexists _, _. reflexivity.
Qed.

(** The buffers keep the batch shape across a step. *)
Lemma forward_shapes (self self' : QuintanaExcNodes.t) (x x' : tensor) :
  QuintanaExcNodes.forward self x = Ok (self', x') ->
  forall b k,
    b = length (QuintanaExcNodes.v self) -> k = QuintanaExcNodes.n self ->
    has_shape b k (QuintanaExcNodes.v self') = true /\
    has_shape b k (QuintanaExcNodes.I self') = true /\
    has_shape b k (QuintanaExcNodes.X self') = true /\
    has_shape b k (QuintanaExcNodes.refrac_count self') = true /\
    has_shape b k (QuintanaExcNodes.s self') = true /\
    has_shape b k x' = true /\
    length (QuintanaExcNodes.theta self') = k.
Proof.
  intros H b k -> ->. forward_inv H. simpl.
  apply shapes_ok_spec in Hshapes. cbv zeta in Hshapes.
  destruct Hshapes as (Hv & HI & HX & Hrc & Hx & Hth).
  set (v1 := tmap2 _ (QuintanaExcNodes.v self) (QuintanaExcNodes.I self)).
  set (theta1 := if QuintanaExcNodes.learning self then _ else _).
  set (s1 := tmap_row _ v1 theta1).
  assert (Hv1 : has_shape (length (QuintanaExcNodes.v self))
                          (QuintanaExcNodes.n self) v1 = true)
    by (unfold v1; auto with shapes).
  assert (Hth1 : length theta1 = QuintanaExcNodes.n self)
    by (unfold theta1; destruct (QuintanaExcNodes.learning self);
        auto with shapes).
  assert (Hs1 : has_shape (length (QuintanaExcNodes.v self))
                          (QuintanaExcNodes.n self) s1 = true)
    by (unfold s1; auto with shapes).
  repeat split; auto 6 with shapes.
  - destruct (QuintanaExcNodes.lbound self); auto 7 with shapes.
  - apply has_shape_spec in Hs1. destruct Hs1 as [_ Hrows].
    destruct (QuintanaExcNodes.learning self); auto.
    rewrite map2_length, Hth1, sum0_length by exact Hrows.
    apply Nat.min_id.
Qed.

(** A step changes neither the configuration nor the decays. *)
Lemma forward_frame (self self' : QuintanaExcNodes.t) (x x' : tensor) :
  QuintanaExcNodes.forward self x = Ok (self', x') ->
  QuintanaExcNodes.n self' = QuintanaExcNodes.n self /\
  QuintanaExcNodes.learning self' = QuintanaExcNodes.learning self /\
  QuintanaExcNodes.lbound self' = QuintanaExcNodes.lbound self /\
  QuintanaExcNodes.dec self' = QuintanaExcNodes.dec self /\
  QuintanaExcNodes.dt self' = QuintanaExcNodes.dt self /\
  exists h, QuintanaExcNodes.dt self = Some h.
Proof.
  intro H. forward_inv H. simpl. eauto 10.
Qed.

(** So the next call, on an input of the batch shape, returns as well. *)
Lemma forward_again (self self' : QuintanaExcNodes.t) (x x' y : tensor) :
  QuintanaExcNodes.forward self x = Ok (self', x') ->
  has_shape (length (QuintanaExcNodes.v self)) (QuintanaExcNodes.n self) y = true ->
  exists self'' y', QuintanaExcNodes.forward self' y = Ok (self'', y').
Proof.
  intros H Hy.
  destruct (forward_shapes _ _ _ _ H _ _ eq_refl eq_refl)
    as (Hv & HI & HX & Hrc & _ & _ & Hth).
  destruct (forward_frame _ _ _ _ H) as (Hn & _ & _ & _ & Hdt & h & Hh).
  assert (Hlen : length (QuintanaExcNodes.v self') =
                 length (QuintanaExcNodes.v self)).
  { apply has_shape_spec in Hv. apply Hv. }
  apply (forward_returns self' y h); [congruence|].
  apply shapes_ok_spec. cbv zeta. rewrite Hlen, Hn. auto 10.
Qed.

(** A population that the network has added, fed inputs of the batch
    shape, never raises. *)
Lemma add_layer_forward_returns (a : QuintanaExcNodes.args)
  (u : QuintanaExcNodes.decays) (pow : Q -> Q -> Q) (h : Q) (batch_size : nat)
  (self : QuintanaExcNodes.t) (x : tensor) :
  QuintanaExcNodes.init a u = Ok self ->
  has_shape batch_size (QuintanaExcNodes.n self) x = true ->
  exists self' x',
    QuintanaExcNodes.forward
      (QuintanaExcNodes.set_batch_size
         (QuintanaExcNodes.compute_decays pow self h) batch_size) x
    = Ok (self', x').
Proof.
  unfold QuintanaExcNodes.init.
  destruct (Nodes_init _ _) as [k|e]; [|discriminate].
  intros [= <-] Hx. simpl in Hx.
  eapply forward_returns; simpl; [reflexivity|].
  apply shapes_ok_spec. cbv zeta. simpl.
  match goal with
  | |- has_shape ?l _ _ = _ /\ _ =>
      replace l with batch_size
        by (unfold tmap, full; now rewrite length_map, repeat_length)
  end.
  repeat split; auto with shapes.
  now rewrite length_map, repeat_length.
Qed.

(** ** Excitatory population: a step, component by component *)

(** Inside the batch shape every buffer has a component at [b], [i]. *)
Lemma forward_lookup (self self' : QuintanaExcNodes.t) (x x' : tensor)
  (b i : nat) :
  QuintanaExcNodes.forward self x = Ok (self', x') ->
  (b < length (QuintanaExcNodes.v self))%nat ->
  (i < QuintanaExcNodes.n self)%nat ->
  exists q c xq rc xi th,
    tget (QuintanaExcNodes.v self) b i = Some q /\
    tget (QuintanaExcNodes.I self) b i = Some c /\
    tget (QuintanaExcNodes.X self) b i = Some xq /\
    tget (QuintanaExcNodes.refrac_count self) b i = Some rc /\
    tget x b i = Some xi /\
    nth_error (QuintanaExcNodes.theta self) i = Some th.
Proof.
  intros H Hb Hi. forward_inv H.
  apply shapes_ok_spec in Hshapes. cbv zeta in Hshapes.
  destruct Hshapes as (Hv & HI & HX & Hrc & Hx & Hth).
  destruct (has_shape_tget _ _ _ b i Hv Hb Hi) as [q Hq].
  destruct (has_shape_tget _ _ _ b i HI Hb Hi) as [c Hc].
  destruct (has_shape_tget _ _ _ b i HX Hb Hi) as [xq Hxq].
  destruct (has_shape_tget _ _ _ b i Hrc Hb Hi) as [rc Hr].
  destruct (has_shape_tget _ _ _ b i Hx Hb Hi) as [xi Hxi].
  destruct (nth_error (QuintanaExcNodes.theta self) i) as [th|] eqn:E.
  - exists q, c, xq, rc, xi, th. auto 10.
  - apply nth_error_None in E. lia.
Qed.

(** A component of one buffer lies inside the batch shape. *)
Lemma forward_index (self self' : QuintanaExcNodes.t) (x x' : tensor)
  (b i : nat) (q : Q) :
  QuintanaExcNodes.forward self x = Ok (self', x') ->
  tget (QuintanaExcNodes.v self) b i = Some q
  \/ tget (QuintanaExcNodes.I self) b i = Some q
  \/ tget (QuintanaExcNodes.X self) b i = Some q
  \/ tget (QuintanaExcNodes.refrac_count self) b i = Some q
  \/ tget x b i = Some q ->
  (b < length (QuintanaExcNodes.v self))%nat /\
  (i < QuintanaExcNodes.n self)%nat.
Proof.
  intros H Hq. forward_inv H.
  apply shapes_ok_spec in Hshapes. cbv zeta in Hshapes.
  destruct Hshapes as (Hv & HI & HX & Hrc & Hx & Hth).
  destruct Hq as [Hq|[Hq|[Hq|[Hq|Hq]]]];
    (eapply tget_has_shape; [|exact Hq]; assumption).
Qed.

(** The values after the step at [b], [i], from the values before it. *)
Lemma forward_components (self self' : QuintanaExcNodes.t) (x x' : tensor)
  (b i : nat) (q c xq rc xi th : Q) :
  QuintanaExcNodes.forward self x = Ok (self', x') ->
  tget (QuintanaExcNodes.v self) b i = Some q ->
  tget (QuintanaExcNodes.I self) b i = Some c ->
  tget (QuintanaExcNodes.X self) b i = Some xq ->
  tget (QuintanaExcNodes.refrac_count self) b i = Some rc ->
  tget x b i = Some xi ->
  nth_error (QuintanaExcNodes.theta self) i = Some th ->
  let d := QuintanaExcNodes.dec self in
  let fired :=
    Qge_bool (leak self q c) (QuintanaExcNodes.thresh self + theta_decayed self th) in
  let gated := if Qgt_bool rc 0 then 0 else xi in
  exists h,
    QuintanaExcNodes.dt self = Some h /\
    tget (QuintanaExcNodes.s self') b i = Some fired /\
    tget (QuintanaExcNodes.refrac_count self') b i =
      Some (if fired then QuintanaExcNodes.refrac self else rc - h) /\
    tget (QuintanaExcNodes.v self') b i =
      Some (clip (QuintanaExcNodes.lbound self)
                 (if fired then QuintanaExcNodes.reset self else leak self q c)) /\
    tget (QuintanaExcNodes.I self') b i =
      Some (c + QuintanaExcNodes.I_decay d * (QuintanaExcNodes.C d * xq - c)) /\
    tget (QuintanaExcNodes.X self') b i =
      Some (xq - QuintanaExcNodes.X_decay d * xq + gated) /\
    tget x' b i = Some gated.
Proof.
  intros H Hq Hc Hxq Hrc Hxi Hth. cbv zeta.
  forward_inv H. simpl. exists dt_. split; [reflexivity|].
  set (v1 := tmap2 _ (QuintanaExcNodes.v self) (QuintanaExcNodes.I self)).
  set (theta1 := if QuintanaExcNodes.learning self then _ else _).
  set (s1 := tmap_row _ v1 theta1).
  assert (Hv1 : tget v1 b i = Some (leak self q c)).
  { unfold v1. rewrite tget_tmap2, Hq, Hc. reflexivity. }
  assert (Hth1 : nth_error theta1 i = Some (theta_decayed self th)).
  { unfold theta1, theta_decayed.
    destruct (QuintanaExcNodes.learning self); auto.
    rewrite nth_error_map, Hth. reflexivity. }
  assert (Hs : tget s1 b i =
               Some (Qge_bool (leak self q c)
                       (QuintanaExcNodes.thresh self + theta_decayed self th))).
  { unfold s1. rewrite tget_tmap_row, Hv1, Hth1. reflexivity. }
  split; [exact Hs|].
  split.
  { rewrite tget_masked_fill, tget_tmap, Hrc, Hs. reflexivity. }
  split.
  { unfold clip. destruct (QuintanaExcNodes.lbound self) as [lb|].
    - rewrite masked_fill_tmap_diag, tget_tmap, tget_masked_fill, Hv1, Hs.
      reflexivity.
    - rewrite tget_masked_fill, Hv1, Hs. reflexivity. }
  split.
  { rewrite tget_tmap2, Hc, Hxq. reflexivity. }
  split.
  { rewrite tget_tmap2, tget_tmap, Hxq, tget_masked_fill, Hxi, tget_tmap, Hrc.
    reflexivity. }
  rewrite tget_masked_fill, Hxi, tget_tmap, Hrc. reflexivity.
Qed.


(** ** C1 *)

(** Comparison of binary32 numbers: swapping the arguments mirrors the
    result, and two numbers that are not NaN always compare. *)
Lemma SFcompare_swap (x y : spec_float) :
  SFcompare y x = option_map CompOpp (SFcompare x y).
Proof.
  destruct x as [sx|sx| |sx mx ex], y as [sy|sy| |sy my ey]; simpl;
    try reflexivity;
    try (destruct sx; reflexivity);
    try (destruct sy; reflexivity);
    try (destruct sx, sy; reflexivity).
  assert (Hm : Pos.compare_cont Eq my mx = CompOpp (Pos.compare_cont Eq mx my))
    by (rewrite (Pos.compare_cont_antisym mx my Eq); reflexivity).
  destruct sx, sy; simpl; try reflexivity;
    rewrite (Z.compare_antisym ex ey), Hm;
    destruct (ex ?= ey)%Z; simpl; try reflexivity;
    destruct (Pos.compare_cont Eq mx my); reflexivity.
Qed.

Lemma F32_lt_false_ge (w lb : F32.t) :
  F32.is_nan w = false -> F32.is_nan lb = false ->
  F32.lt w lb = false -> F32.ge w lb = true.
Proof.
  unfold F32.lt, F32.ge, SFltb, SFleb. intros Hw Hlb.
  rewrite (SFcompare_swap w lb).
  destruct (SFcompare w lb) as [[| |]|] eqn:E; simpl; try reflexivity;
    try discriminate.
  destruct w, lb; simpl in *; discriminate.
Qed.

(** C1, as the code has it. Excitatory population on binary32 numbers with a
    configured lower bound [lb] that is not NaN: after a call to [forward]
    returns, [v] keeps its batch shape and every component of [v] is NaN or
    at least [lb], whatever the input and the state before.  The clipping
    overwrites the components that compare below [lb], and NaN does not. *)
Theorem forward32_v_ge_lbound (self self' : QuintanaExcNodes32.t)
  (x x' : list (list F32.t)) (lb : F32.t) :
  QuintanaExcNodes32.forward self x = Ok (self', x') ->
  QuintanaExcNodes32.lbound self = Some lb ->
  F32.is_nan lb = false ->
  has_shape (length (QuintanaExcNodes32.v self)) (QuintanaExcNodes32.n self)
            (QuintanaExcNodes32.v self') = true /\
  Forall (Forall (fun w => F32.is_nan w = true \/ F32.ge w lb = true))
         (QuintanaExcNodes32.v self').
Proof.
  unfold QuintanaExcNodes32.forward. intros H Hlb Hnan.
  destruct (QuintanaExcNodes32.dt self) as [h|]; [|discriminate].
  destruct (QuintanaExcNodes32.shapes_ok self x) eqn:Hs; [|discriminate].
  injection H as <- <-. simpl. rewrite Hlb.
  unfold QuintanaExcNodes32.shapes_ok in Hs.
  rewrite !andb_true_iff, Nat.eqb_eq in Hs.
  destruct Hs as (((((Hv & HI) & _) & _) & _) & Hth).
  split.
  - destruct (QuintanaExcNodes32.learning self); auto 8 with shapes.
  - apply tget_Forall. intros b i w.
    rewrite tget_masked_fill, tget_tmap.
    match goal with
    | |- context [tget ?t b i] => destruct (tget t b i) as [a|]
    end; simpl; [|discriminate].
    intros [= <-].
    destruct (F32.lt a lb) eqn:E.
    + right. unfold F32.ge, SFleb.
      destruct lb; try discriminate; simpl.
      * reflexivity.
      * destruct s; reflexivity.
      * destruct s; rewrite Z.compare_refl, Pos.compare_cont_refl; reflexivity.
    + destruct (F32.is_nan a) eqn:Ea; [left; reflexivity|].
      right. apply F32_lt_false_ge; assumption.
Qed.

(** A population driven below its lower bound: the hidden layer of the
    network with input [-1e6] at neuron 0 has, in the third step, a leaked
    voltage of [-32000], and ends the step at the bound [-100]. *)
Lemma forward32_v_ge_lbound_witness :
  exists self s1 x1,
    add_exc32_layer hidden_args 0.5 1 = Ok self /\
    QuintanaExcNodes32.forward self [[F32.of_Q (-1e6); F32.zero]]
      = Ok (s1, x1) /\
    exists s2 x2,
      QuintanaExcNodes32.forward s1 [[F32.of_Q (-1e6); F32.zero]]
        = Ok (s2, x2) /\
      exists s3 x3,
        QuintanaExcNodes32.forward s2 [[F32.of_Q (-1e6); F32.zero]]
          = Ok (s3, x3) /\
        QuintanaExcNodes32.v s3 = [[F32.of_Q (-100.0); F32.zero]] /\
        Forall (Forall (fun w => F32.is_nan w = true \/
                                 F32.ge w (F32.of_Q (-100.0)) = true))
               (QuintanaExcNodes32.v s3).
Proof.
  exc_step Hf1. eexists _, _. run_step Hf2. eexists _, _. run_step Hf3.
  split; [vm_compute; reflexivity|].
  apply (forward32_v_ge_lbound _ _ _ _ (F32.of_Q (-100.0)) Hf3);
    vm_compute; reflexivity.
Defined.

(** C1, refuted as stated: the hidden layer of the network, stepped four
    times with the finite input [3e38] at neuron 0.  The trace and the
    current overflow to infinity in the second step, their updates give NaN
    in the third, and in the fourth the voltage of neuron 0 is NaN, which the
    clipping leaves alone: it is not at least [lbound = -100]. *)
Lemma forward32_v_nan_after_overflow :
  exists self s1 x1 s2 x2 s3 x3 s4 x4,
    add_exc32_layer hidden_args 0.5 1 = Ok self /\
    QuintanaExcNodes32.forward self [[F32.of_Q 3e38; F32.zero]]
      = Ok (s1, x1) /\
    QuintanaExcNodes32.forward s1 [[F32.of_Q 3e38; F32.zero]] = Ok (s2, x2) /\
    QuintanaExcNodes32.forward s2 [[F32.of_Q 3e38; F32.zero]] = Ok (s3, x3) /\
    QuintanaExcNodes32.forward s3 [[F32.of_Q 3e38; F32.zero]] = Ok (s4, x4) /\
    F32.is_nan (F32.of_Q 3e38) = false /\
    QuintanaExcNodes32.lbound s4 = Some (F32.of_Q (-100.0)) /\
    tget (QuintanaExcNodes32.v s4) 0 0 = Some S754_nan /\
    F32.ge S754_nan (F32.of_Q (-100.0)) = false.
Proof.
  eexists _, _, _, _, _, _, _, _, _.
  split; [vm_compute; reflexivity|].
  split; [vm_compute; reflexivity|].
  split; [vm_compute; reflexivity|].
  split; [vm_compute; reflexivity|].
  split; [vm_compute; reflexivity|].
  repeat split; vm_compute; reflexivity.
Qed.

(** ** C2 *)

(** C2. Excitatory population, after [reset_state_variables]: every
    component of [v] is the resting voltage [rest]; every component of [X],
    of [I] and of [refrac_count] is zero; [theta] is exactly what it was
    before.  The buffers keep their shapes, so this covers every batch
    element and every neuron. *)
Theorem reset_state_variables_spec (self : QuintanaExcNodes.t) :
  let self' := QuintanaExcNodes.reset_state_variables self in
  (Forall (Forall (fun q => q = QuintanaExcNodes.rest self))
          (QuintanaExcNodes.v self') /\
   Forall (Forall (fun q => q = 0)) (QuintanaExcNodes.X self') /\
   Forall (Forall (fun q => q = 0)) (QuintanaExcNodes.I self') /\
   Forall (Forall (fun q => q = 0)) (QuintanaExcNodes.refrac_count self')) /\
  QuintanaExcNodes.theta self' = QuintanaExcNodes.theta self /\
  (map (@length Q) (QuintanaExcNodes.v self') =
     map (@length Q) (QuintanaExcNodes.v self) /\
   map (@length Q) (QuintanaExcNodes.X self') =
     map (@length Q) (QuintanaExcNodes.X self) /\
   map (@length Q) (QuintanaExcNodes.I self') =
     map (@length Q) (QuintanaExcNodes.I self) /\
   map (@length Q) (QuintanaExcNodes.refrac_count self') =
     map (@length Q) (QuintanaExcNodes.refrac_count self)).
Proof.
  cbv zeta. unfold QuintanaExcNodes.reset_state_variables. simpl.
  repeat split; try apply Forall_fill; apply fill_shape.
Qed.

(** ** C3 *)



(** On binary32 numbers the decrease need not be strict: for the hidden
    layer of the network ([dt = 0.5], [tc_theta_decay = 2e7]) the decrement
    of [theta = 20] is below half a unit in the last place, and a step
    without a spike, in learning mode with [theta_decay > 0], leaves [theta]
    at exactly 20. *)
Example forward32_theta_not_strictly_decreasing :
  exists self self' x',
    add_exc32_layer hidden_args 0.5 1 = Ok self /\
    QuintanaExcNodes32.forward self [[F32.of_Q 100; F32.zero]]
      = Ok (self', x') /\
    QuintanaExcNodes32.learning self = true /\
    F32.gt (QuintanaExcNodes32.theta_decay (QuintanaExcNodes32.dec self))
           F32.zero = true /\
    QuintanaExcNodes32.s self' = [[false; false]] /\
    QuintanaExcNodes32.theta self = [F32.of_Z 20; F32.of_Z 20] /\
    QuintanaExcNodes32.theta self' = [F32.of_Z 20; F32.of_Z 20].
Proof.
  exc_step Hf. repeat split; vm_compute; reflexivity.
Qed.


(** ** C4 *)

(** C4, as the code has it. Neither constructor looks at the synaptic time
    constants: whenever the host's check of [n] and [shape] passes, the
    population is built with [tau_inc] and [tau_dec] stored as given, equal
    or not, and [compute_decays] then evaluates the normalisation formula on
    the stored values without a guard. *)
Theorem init_accepts_any_time_constants
  (a : QuintanaExcNodes.args) (u : QuintanaExcNodes.decays)
  (a' : QuintanaSLNodes.args) (u' : QuintanaSLNodes.decays) (k k' : nat) :
  Nodes_init (QuintanaExcNodes.a_n a) (QuintanaExcNodes.a_shape a) = Ok k ->
  Nodes_init (QuintanaSLNodes.a_n a') (QuintanaSLNodes.a_shape a') = Ok k' ->
  (exists self,
      QuintanaExcNodes.init a u = Ok self /\
      QuintanaExcNodes.tau_inc self = QuintanaExcNodes.a_tau_inc a /\
      QuintanaExcNodes.tau_dec self = QuintanaExcNodes.a_tau_dec a /\
      forall (pow : Q -> Q -> Q) (h : Q),
        QuintanaExcNodes.C
          (QuintanaExcNodes.dec (QuintanaExcNodes.compute_decays pow self h)) =
        pow (QuintanaExcNodes.a_tau_dec a / QuintanaExcNodes.a_tau_inc a)
            (QuintanaExcNodes.a_tau_inc a /
             (QuintanaExcNodes.a_tau_dec a - QuintanaExcNodes.a_tau_inc a))) /\
  (exists self,
      QuintanaSLNodes.init a' u' = Ok self /\
      QuintanaSLNodes.tau_inc self = QuintanaSLNodes.a_tau_inc a' /\
      QuintanaSLNodes.tau_dec self = QuintanaSLNodes.a_tau_dec a' /\
      forall (pow : Q -> Q -> Q) (h : Q),
        QuintanaSLNodes.C
          (QuintanaSLNodes.dec (QuintanaSLNodes.compute_decays pow self h)) =
        pow (QuintanaSLNodes.a_tau_dec a' / QuintanaSLNodes.a_tau_inc a')
            (QuintanaSLNodes.a_tau_inc a' /
             (QuintanaSLNodes.a_tau_dec a' - QuintanaSLNodes.a_tau_inc a'))).
Proof.
  intros Hk Hk'.
  unfold QuintanaExcNodes.init, QuintanaSLNodes.init. rewrite Hk, Hk'.
  split; eexists; (split; [reflexivity|]); simpl; auto.
Qed.

Lemma init_accepts_any_time_constants_witness :
  (exists self,
      QuintanaExcNodes.init (exc_args (-52.0) 2e7 5 (Some (-100.0))) exc_uninit
        = Ok self /\
      QuintanaExcNodes.tau_inc self = 5 /\ QuintanaExcNodes.tau_dec self = 5) /\
  (exists self,
      QuintanaSLNodes.init (sl_args (-60.0) 5) sl_uninit = Ok self /\
      QuintanaSLNodes.tau_inc self = 5 /\ QuintanaSLNodes.tau_dec self = 5).
Proof.
  destruct (init_accepts_any_time_constants
              (exc_args (-52.0) 2e7 5 (Some (-100.0))) exc_uninit
              (sl_args (-60.0) 5) sl_uninit 1 1 eq_refl eq_refl)
    as [(self & H1 & H2 & H3 & _) (self' & H1' & H2' & H3' & _)].
  split.
  - exists self. auto.
  - exists self'. auto.
Defined.

(** C4, refuted as stated: both constructors accept equal rise and decay
    time constants ([tau_inc = tau_dec = 5]) and raise nothing. *)
Lemma init_equal_time_constants_not_rejected :
  (exists self,
      QuintanaExcNodes.init (exc_args (-52.0) 2e7 5 (Some (-100.0))) exc_uninit
        = Ok self /\
      QuintanaExcNodes.tau_inc self == QuintanaExcNodes.tau_dec self) /\
  (exists self,
      QuintanaSLNodes.init (sl_args (-60.0) 5) sl_uninit = Ok self /\
      QuintanaSLNodes.tau_inc self == QuintanaSLNodes.tau_dec self) /\
  (forall e,
      QuintanaExcNodes.init (exc_args (-52.0) 2e7 5 (Some (-100.0))) exc_uninit
        <> Raise e) /\
  (forall e, QuintanaSLNodes.init (sl_args (-60.0) 5) sl_uninit <> Raise e).
Proof.
  split; [eexists; split; [reflexivity|reflexivity]|].
  split; [eexists; split; [reflexivity|reflexivity]|].
  split; intros e H; discriminate H.
Qed.

(** Constructed with nothing but the defaults, either population is refused
    by the base class, which needs [n] or [shape]. *)
Example init_defaults_raise :
  QuintanaExcNodes.init QuintanaExcNodes.defaults exc_uninit
    = Raise AssertionError /\
  QuintanaSLNodes.init QuintanaSLNodes.defaults sl_uninit
    = Raise AssertionError.
Proof. split; reflexivity. Qed.

(** ** C5 *)

(** C5, as the code has it. Output population in learning mode: [forward]
    returns for every input, leaves the input, the synaptic current [I] and
    the trace [X] exactly as they were, and keeps the shape of [v]; but the
    spike check and voltage reset still run, so a component of [v] is kept
    only where it is below [thresh], and becomes [reset] where it has reached
    [thresh]. *)
Theorem sl_forward_learning (self : QuintanaSLNodes.t) (x : tensor) :
  QuintanaSLNodes.learning self = true ->
  exists self',
    QuintanaSLNodes.forward self x = Ok (self', x) /\
    QuintanaSLNodes.I self' = QuintanaSLNodes.I self /\
    QuintanaSLNodes.X self' = QuintanaSLNodes.X self /\
    map (@length Q) (QuintanaSLNodes.v self') =
      map (@length Q) (QuintanaSLNodes.v self) /\
    forall b i q,
      tget (QuintanaSLNodes.v self) b i = Some q ->
      (q < QuintanaSLNodes.thresh self ->
       tget (QuintanaSLNodes.v self') b i = Some q) /\
      (QuintanaSLNodes.thresh self <= q ->
       tget (QuintanaSLNodes.v self') b i = Some (QuintanaSLNodes.reset self)).
Proof.
  intro Hl. unfold QuintanaSLNodes.forward. rewrite Hl. simpl.
  eexists. split; [reflexivity|]. simpl.
  rewrite masked_fill_tmap_diag.
  repeat split; auto using tmap_shape.
  - intro Hlt. rewrite tget_tmap, H. simpl.
    destruct (Qge_bool q (QuintanaSLNodes.thresh self)) eqn:E; auto.
    apply Qge_bool_iff in E. exfalso. eapply Qlt_not_le; eassumption.
  - intro Hge. rewrite tget_tmap, H. simpl.
    apply Qge_bool_iff in Hge. now rewrite Hge.
Qed.

Lemma sl_forward_learning_witness :
  exists self,
    add_sl_layer (sl_args (-60.0) 10) 0.5 1 = Ok self /\
    QuintanaSLNodes.learning self = true /\
    exists self',
      QuintanaSLNodes.forward self [[7]] = Ok (self', [[7]]) /\
      QuintanaSLNodes.I self' = QuintanaSLNodes.I self /\
      QuintanaSLNodes.X self' = QuintanaSLNodes.X self /\
      map (@length Q) (QuintanaSLNodes.v self') =
        map (@length Q) (QuintanaSLNodes.v self) /\
      forall b i q,
        tget (QuintanaSLNodes.v self) b i = Some q ->
        (q < QuintanaSLNodes.thresh self ->
         tget (QuintanaSLNodes.v self') b i = Some q) /\
        (QuintanaSLNodes.thresh self <= q ->
         tget (QuintanaSLNodes.v self') b i = Some (QuintanaSLNodes.reset self)).
Proof.
  eexists. split; [reflexivity|]. split; [reflexivity|].
  apply sl_forward_learning. reflexivity.
Defined.

(** C5, refuted as stated: an output population constructed with
    [rest = -30], above the default [thresh = -40], is in learning mode after
    [set_batch_size], and its first [forward] moves [v] from [-30] to the
    reset voltage [-45]. *)
Lemma sl_learning_step_changes_v :
  exists self self' x',
    add_sl_layer (sl_args (-30.0) 10) 0.5 1 = Ok self /\
    QuintanaSLNodes.learning self = true /\
    QuintanaSLNodes.forward self [[0]] = Ok (self', x') /\
    exists q q',
      tget (QuintanaSLNodes.v self) 0 0 = Some q /\
      tget (QuintanaSLNodes.v self') 0 0 = Some q' /\
      q == -30.0 /\ q' == -45.0 /\ ~ q' == q.
Proof.
  eexists _, _, _. split; [vm_compute; reflexivity|]. split; [reflexivity|].
  split; [vm_compute; reflexivity|].
  eexists _, _. split; [reflexivity|]. split; [reflexivity|].
  split; [reflexivity|]. split; [reflexivity|].
  intro H. vm_compute in H. discriminate H.
Qed.

(** ** C6 *)

(** C6, as the code has it. Excitatory population, one step: the spike
    indicator of a neuron is [v >= thresh + theta] on the voltage after its
    leaky update and the threshold after its decay; a neuron that spikes has
    its refractory counter at [refrac] after the step, and its voltage at
    [reset] once clipped to the lower bound: at [reset] when no lower bound
    is configured or the bound is at most [reset], at the bound when [reset]
    lies below it. *)
Theorem forward_spike (self self' : QuintanaExcNodes.t) (x x' : tensor)
  (b i : nat) (q c th : Q) :
  QuintanaExcNodes.forward self x = Ok (self', x') ->
  tget (QuintanaExcNodes.v self) b i = Some q ->
  tget (QuintanaExcNodes.I self) b i = Some c ->
  nth_error (QuintanaExcNodes.theta self) i = Some th ->
  let fired :=
    Qge_bool (leak self q c)
             (QuintanaExcNodes.thresh self + theta_decayed self th) in
  tget (QuintanaExcNodes.s self') b i = Some fired /\
  (fired = true ->
   tget (QuintanaExcNodes.refrac_count self') b i =
     Some (QuintanaExcNodes.refrac self) /\
   tget (QuintanaExcNodes.v self') b i =
     Some (clip (QuintanaExcNodes.lbound self) (QuintanaExcNodes.reset self)) /\
   ((forall lb, QuintanaExcNodes.lbound self = Some lb ->
                lb <= QuintanaExcNodes.reset self) ->
    tget (QuintanaExcNodes.v self') b i = Some (QuintanaExcNodes.reset self)) /\
   (forall lb, QuintanaExcNodes.lbound self = Some lb ->
               QuintanaExcNodes.reset self < lb ->
               tget (QuintanaExcNodes.v self') b i = Some lb)).
Proof.
  intros H Hq Hc Hth. cbv zeta.
  destruct (forward_index _ _ _ _ b i q H (or_introl Hq)) as [Hb Hi].
  destruct (forward_lookup _ _ _ _ b i H Hb Hi)
    as (q0 & c0 & xq & rc & xi & th0 & Hq0 & Hc0 & Hxq & Hrc & Hxi & Hth0).
  destruct (forward_components _ _ _ _ b i q c xq rc xi th H Hq Hc Hxq Hrc Hxi Hth)
    as (h & Hdt & Hs & Hr & Hv & _).
  cbv zeta in Hs, Hr, Hv. split; [exact Hs|].
  intro Hfired. rewrite Hfired in Hr, Hv.
  split; [exact Hr|]. split; [exact Hv|]. split.
  - intro Hle. rewrite Hv, clip_ge; auto.
  - intros lb Hlb Hlt. rewrite Hv, Hlb, clip_lt; auto.
Qed.

Lemma forward_spike_witness :
  exists self self' x',
    add_exc_layer (exc_args (-100.0) 2e7 10 (Some (-100.0))) 1 1 = Ok self /\
    QuintanaExcNodes.forward self [[0]] = Ok (self', x') /\
    tget (QuintanaExcNodes.s self') 0 0 = Some true /\
    tget (QuintanaExcNodes.refrac_count self') 0 0 = Some 2 /\
    tget (QuintanaExcNodes.v self') 0 0 = Some (-65.0).
Proof.
  exc_step Hf.
  destruct (forward_spike _ _ _ _ 0 0 _ _ _ Hf eq_refl eq_refl eq_refl)
    as (Hs & Hfired).
  split; [exact Hs|].
  destruct (Hfired eq_refl) as (Hr & _ & Hv & _).
  split; [exact Hr|].
  apply Hv. intros lb [= <-]. discriminate.
Defined.

(** C6, refuted as stated: with the lower bound configured above the reset
    voltage ([lbound = -50], [reset = -65]) a neuron that spikes leaves the
    step with its voltage at the bound, not at [reset]. *)
Lemma spike_voltage_clipped_to_lbound :
  exists self self' x',
    add_exc_layer (exc_args (-100.0) 2e7 10 (Some (-50.0))) 1 1 = Ok self /\
    QuintanaExcNodes.forward self [[0]] = Ok (self', x') /\
    tget (QuintanaExcNodes.s self') 0 0 = Some true /\
    exists w,
      tget (QuintanaExcNodes.v self') 0 0 = Some w /\
      w == -50.0 /\ ~ w == QuintanaExcNodes.reset self.
Proof.
  exc_step Hf. split; [reflexivity|].
  eexists. split; [reflexivity|]. split; [reflexivity|].
  intro H. vm_compute in H. discriminate H.
Qed.

(** ** C7 *)

(** C7. Excitatory population, one step: where the refractory counter is
    positive at the start of the step, the trace [X] ends the step at its
    decayed value, with nothing of the input in it; elsewhere the input
    component is added to the decayed trace.  The counter ends the step
    lowered by [dt] (below zero when it was below [dt]), unless the neuron
    spikes in the step, which sets it to [refrac]. *)
Theorem forward_input_gating (self self' : QuintanaExcNodes.t) (x x' : tensor)
  (b i : nat) (rc xi xq : Q) :
  QuintanaExcNodes.forward self x = Ok (self', x') ->
  tget (QuintanaExcNodes.refrac_count self) b i = Some rc ->
  tget x b i = Some xi ->
  tget (QuintanaExcNodes.X self) b i = Some xq ->
  let decayed :=
    xq - QuintanaExcNodes.X_decay (QuintanaExcNodes.dec self) * xq in
  (0 < rc ->
   exists w, tget (QuintanaExcNodes.X self') b i = Some w /\ w == decayed) /\
  (rc <= 0 -> tget (QuintanaExcNodes.X self') b i = Some (decayed + xi)) /\
  exists h fired,
    QuintanaExcNodes.dt self = Some h /\
    tget (QuintanaExcNodes.s self') b i = Some fired /\
    tget (QuintanaExcNodes.refrac_count self') b i =
      Some (if fired then QuintanaExcNodes.refrac self else rc - h).
Proof.
  intros H Hrc Hxi Hxq. cbv zeta.
  destruct (forward_index _ _ _ _ b i xi H
              (or_intror (or_intror (or_intror (or_intror Hxi))))) as [Hb Hi].
  destruct (forward_lookup _ _ _ _ b i H Hb Hi)
    as (q & c & xq0 & rc0 & xi0 & th & Hq & Hc & _ & _ & _ & Hth).
  destruct (forward_components _ _ _ _ b i q c xq rc xi th H Hq Hc Hxq Hrc Hxi Hth)
    as (h & Hdt & Hs & Hr & _ & _ & HX & _).
  cbv zeta in Hs, Hr, HX. repeat split.
  - intro Hpos. apply Qgt_bool_iff in Hpos. rewrite Hpos in HX.
    eexists. split; [exact HX|]. apply Qplus_0_r.
  - intro Hle. rewrite (Qgt_bool_le _ _ Hle) in HX. exact HX.
  - eexists h, _. split; [exact Hdt|]. split; [exact Hs|]. exact Hr.
Qed.

(** A neuron that spikes in the first step after construction and is still
    refractory in the second: the input [3] of the second step is not added
    to its trace, and its counter goes from [refrac = 2] to [2 - dt]. *)
Lemma forward_input_gating_witness :
  exists self self1 x1,
    add_exc_layer (exc_args (-85.02) 2e7 10 (Some (-100.0))) 1 1 = Ok self /\
    QuintanaExcNodes.forward self [[0]] = Ok (self1, x1) /\
    tget (QuintanaExcNodes.refrac_count self1) 0 0 = Some 2 /\
    exists self2 x2,
      QuintanaExcNodes.forward self1 [[3]] = Ok (self2, x2) /\
      (exists w, tget (QuintanaExcNodes.X self2) 0 0 = Some w /\ w == 0) /\
      tget (QuintanaExcNodes.refrac_count self2) 0 0 = Some (2 - 1).
Proof.
  exc_step Hf1. split; [reflexivity|].
  eexists _, _. run_step Hf2.
  destruct (forward_input_gating _ _ _ _ 0 0 _ _ _ Hf2 eq_refl eq_refl eq_refl)
    as (Hpos & _ & h & fired & Hdt & Hs & Hr).
  split.
  - destruct (Hpos eq_refl) as (w & Hw & Heq).
    exists w. split; [exact Hw|]. rewrite Heq. reflexivity.
  - injection Hdt as <-. injection Hs as <-. exact Hr.
Defined.

(** The counter of a neuron that is not refractory and does not spike goes
    below zero: the hidden layer of the network, first step, [dt = 0.5]. *)
Example forward_refrac_count_negative :
  exists self self' x',
    add_exc_layer hidden_args 0.5 1 = Ok self /\
    QuintanaExcNodes.forward self [[100; 0]] = Ok (self', x') /\
    QuintanaExcNodes.refrac_count self = [[0; 0]] /\
    QuintanaExcNodes.s self' = [[false; false]] /\
    QuintanaExcNodes.refrac_count self' = [[0 - 0.5; 0 - 0.5]].
Proof.
  exc_step Hf. split; [reflexivity|]. split; reflexivity.
Qed.

(** ** C8 *)




(** ** C9 *)

(** C9. [forward] of the excitatory population writes into the tensor it is
    given: when the call returns, the caller's tensor has the same shape,
    holds zero at every position whose refractory counter was positive at the
    start of the step, and its old value elsewhere; so it differs from what
    was passed whenever a refractory position held a nonzero input. *)
Theorem forward_overwrites_input (self self' : QuintanaExcNodes.t)
  (x x' : tensor) :
  QuintanaExcNodes.forward self x = Ok (self', x') ->
  map (@length Q) x' = map (@length Q) x /\
  forall b i rc xi,
    tget (QuintanaExcNodes.refrac_count self) b i = Some rc ->
    tget x b i = Some xi ->
    (0 < rc -> tget x' b i = Some 0) /\
    (rc <= 0 -> tget x' b i = Some xi) /\
    (0 < rc -> ~ xi == 0 -> x' <> x).
Proof.
  intro H.
  assert (Hcomp : forall b i rc xi,
             tget (QuintanaExcNodes.refrac_count self) b i = Some rc ->
             tget x b i = Some xi ->
             tget x' b i = Some (if Qgt_bool rc 0 then 0 else xi)).
  { intros b i rc xi Hrc Hxi.
    destruct (forward_index _ _ _ _ b i xi H
                (or_intror (or_intror (or_intror (or_intror Hxi))))) as [Hb Hi].
    destruct (forward_lookup _ _ _ _ b i H Hb Hi)
      as (q & c & xq & rc0 & xi0 & th & Hq & Hc & Hxq & _ & _ & Hth).
    destruct (forward_components _ _ _ _ b i q c xq rc xi th
                H Hq Hc Hxq Hrc Hxi Hth) as (h & _ & _ & _ & _ & _ & _ & Hx').
    exact Hx'. }
  split.
  - forward_inv H.
    apply shapes_ok_spec in Hshapes. cbv zeta in Hshapes.
    destruct Hshapes as (_ & _ & _ & Hrc & Hx & _).
    eapply masked_fill_shape; [exact Hx|].
    apply has_shape_tmap, Hrc.
  - intros b i rc xi Hrc Hxi. specialize (Hcomp b i rc xi Hrc Hxi).
    repeat split.
    + intro Hpos. apply Qgt_bool_iff in Hpos. now rewrite Hpos in Hcomp.
    + intro Hle. now rewrite (Qgt_bool_le _ _ Hle) in Hcomp.
    + intros Hpos Hnz Heq. apply Qgt_bool_iff in Hpos.
      rewrite Hpos, Heq, Hxi in Hcomp. injection Hcomp as ->.
      apply Hnz. reflexivity.
Qed.

Lemma forward_overwrites_input_witness :
  exists self self1 x1,
    add_exc_layer (exc_args (-85.02) 2e7 10 (Some (-100.0))) 1 1 = Ok self /\
    QuintanaExcNodes.forward self [[0]] = Ok (self1, x1) /\
    tget (QuintanaExcNodes.refrac_count self1) 0 0 = Some 2 /\
    exists self2 x2,
      QuintanaExcNodes.forward self1 [[3]] = Ok (self2, x2) /\
      tget x2 0 0 = Some 0 /\ x2 <> [[3]].
Proof.
  exc_step Hf1. split; [reflexivity|].
  eexists _, _. run_step Hf2.
  destruct (forward_overwrites_input _ _ _ _ Hf2) as (_ & Hx).
  destruct (Hx 0%nat 0%nat 2 3 eq_refl eq_refl) as (Hzero & _ & Hneq).
  split.
  - apply Hzero. reflexivity.
  - apply Hneq; [reflexivity|]. intro H. discriminate H.
Defined.

(** ** C10 *)

(** C10. A freshly constructed excitatory population has one [theta] entry
    per neuron, each equal to 20, so that the threshold a voltage is compared
    with starts from [thresh + 20]; and on any population, neither
    [reset_state_variables] nor [set_batch_size] touches [theta], which thus
    keeps its [n] entries and never gets a batch dimension. *)
Theorem init_theta (a : QuintanaExcNodes.args) (uninit : QuintanaExcNodes.decays)
  (self : QuintanaExcNodes.t) :
  QuintanaExcNodes.init a uninit = Ok self ->
  length (QuintanaExcNodes.theta self) = QuintanaExcNodes.n self /\
  Forall (fun th => th = 20) (QuintanaExcNodes.theta self) /\
  Forall (fun th => QuintanaExcNodes.thresh self + th =
                    QuintanaExcNodes.a_thresh a + 20)
         (QuintanaExcNodes.theta self) /\
  (forall st : QuintanaExcNodes.t,
      QuintanaExcNodes.theta (QuintanaExcNodes.reset_state_variables st) =
      QuintanaExcNodes.theta st) /\
  (forall (st : QuintanaExcNodes.t) (batch_size : nat),
      QuintanaExcNodes.theta (QuintanaExcNodes.set_batch_size st batch_size) =
      QuintanaExcNodes.theta st).
Proof.
  unfold QuintanaExcNodes.init.
  destruct (Nodes_init _ _) as [k|e]; [|discriminate].
  intros [= <-]. simpl. repeat split.
  - now rewrite length_map, repeat_length.
  - apply Forall_map, Forall_repeat. reflexivity.
  - apply Forall_map, Forall_repeat. reflexivity.
Qed.

Lemma init_theta_witness :
  exists self,
    QuintanaExcNodes.init hidden_args exc_uninit = Ok self /\
    QuintanaExcNodes.theta self = [20; 20] /\
    Forall (fun th => QuintanaExcNodes.thresh self + th = 120.0 + 20)
           (QuintanaExcNodes.theta self) /\
    QuintanaExcNodes.theta
      (QuintanaExcNodes.set_batch_size
         (QuintanaExcNodes.reset_state_variables self) 4) = [20; 20].
Proof.
  eexists. split; [reflexivity|].
  pose proof (init_theta hidden_args exc_uninit _ eq_refl)
    as (_ & _ & Hthr & Hreset & Hbatch).
  split; [reflexivity|]. split; [exact Hthr|].
  rewrite Hbatch, Hreset. reflexivity.
Defined.

(** * Further properties of the two populations and of the network *)

Lemma tget_full {A : Type} (bs k : nat) (a a' : A) (b i : nat) :
  tget (full bs k a) b i = Some a' -> a' = a.
Proof.
  unfold tget, full. intro H.
  destruct (nth_error (repeat (repeat a k) bs) b) as [r|] eqn:E;
    [|discriminate].
  apply nth_error_In, repeat_spec in E. subst r.
  apply nth_error_In, repeat_spec in H. exact H.
Qed.

Lemma Forall_full {A : Type} (bs k : nat) (a : A) :
  Forall (Forall (fun a' => a' = a)) (full bs k a).
Proof. apply tget_Forall. intros b i a'. apply tget_full. Qed.

(** ** X1 *)

(** X1. [set_batch_size] of the excitatory population reallocates: whatever
    the buffers held, afterwards [v], [X], [I], [refrac_count] and [s] have
    shape [batch_size, n], every voltage is [rest] (as [rest * 1]), every
    trace, current and counter is zero and no spike is recorded; a second
    call with another batch size gives what a single call with that size
    gives. *)
Theorem set_batch_size_spec (self : QuintanaExcNodes.t) (batch_size : nat) :
  let self' := QuintanaExcNodes.set_batch_size self batch_size in
  let k := QuintanaExcNodes.n self in
  (has_shape batch_size k (QuintanaExcNodes.v self') = true /\
   has_shape batch_size k (QuintanaExcNodes.X self') = true /\
   has_shape batch_size k (QuintanaExcNodes.I self') = true /\
   has_shape batch_size k (QuintanaExcNodes.refrac_count self') = true /\
   has_shape batch_size k (QuintanaExcNodes.s self') = true) /\
  (Forall (Forall (fun q => q == QuintanaExcNodes.rest self))
          (QuintanaExcNodes.v self') /\
   Forall (Forall (fun q => q = 0)) (QuintanaExcNodes.X self') /\
   Forall (Forall (fun q => q = 0)) (QuintanaExcNodes.I self') /\
   Forall (Forall (fun q => q = 0)) (QuintanaExcNodes.refrac_count self') /\
   Forall (Forall (fun c => c = false)) (QuintanaExcNodes.s self')) /\
  forall batch_size',
    QuintanaExcNodes.set_batch_size self' batch_size' =
    QuintanaExcNodes.set_batch_size self batch_size'.
Proof.
  cbv zeta. unfold QuintanaExcNodes.set_batch_size. simpl.
  split; [repeat split; auto with shapes|].
  split; [|reflexivity].
  repeat split; try apply Forall_full.
  apply tget_Forall. intros b i q. rewrite tget_tmap.
  destruct (tget (full batch_size (QuintanaExcNodes.n self) 1) b i) as [one|] eqn:E;
    simpl; [|discriminate].
  apply tget_full in E. subst one. intros [= <-]. ring.
Qed.

(** ** X2 *)

(** X2. Output population: [reset_state_variables] sets every voltage to
    [rest] and every current and trace to zero, keeping the shapes;
    [set_batch_size] reallocates [v], [I], [X] and [s] with shape
    [batch_size, n], the voltages at [rest] (as [rest * 1]), currents and
    traces at zero. *)
Theorem sl_reset_and_set_batch_size (self : QuintanaSLNodes.t)
  (batch_size : nat) :
  let r := QuintanaSLNodes.reset_state_variables self in
  let a := QuintanaSLNodes.set_batch_size self batch_size in
  let k := QuintanaSLNodes.n self in
  (Forall (Forall (fun q => q = QuintanaSLNodes.rest self)) (QuintanaSLNodes.v r) /\
   Forall (Forall (fun q => q = 0)) (QuintanaSLNodes.I r) /\
   Forall (Forall (fun q => q = 0)) (QuintanaSLNodes.X r) /\
   map (@length Q) (QuintanaSLNodes.v r) = map (@length Q) (QuintanaSLNodes.v self) /\
   map (@length Q) (QuintanaSLNodes.I r) = map (@length Q) (QuintanaSLNodes.I self) /\
   map (@length Q) (QuintanaSLNodes.X r) = map (@length Q) (QuintanaSLNodes.X self)) /\
  (has_shape batch_size k (QuintanaSLNodes.v a) = true /\
   has_shape batch_size k (QuintanaSLNodes.I a) = true /\
   has_shape batch_size k (QuintanaSLNodes.X a) = true /\
   has_shape batch_size k (QuintanaSLNodes.s a) = true /\
   Forall (Forall (fun q => q == QuintanaSLNodes.rest self)) (QuintanaSLNodes.v a) /\
   Forall (Forall (fun q => q = 0)) (QuintanaSLNodes.I a) /\
   Forall (Forall (fun q => q = 0)) (QuintanaSLNodes.X a)).
Proof.
  cbv zeta.
  unfold QuintanaSLNodes.reset_state_variables, QuintanaSLNodes.set_batch_size.
  simpl. split.
  - repeat split; try apply Forall_fill; apply fill_shape.
  - repeat split; auto with shapes; try apply Forall_full.
    apply tget_Forall. intros b i q. rewrite tget_tmap.
    destruct (tget (full batch_size (QuintanaSLNodes.n self) 1) b i) as [one|] eqn:E;
      simpl; [|discriminate].
    apply tget_full in E. subst one. intros [= <-]. ring.
Qed.

(** ** X3 *)

(** X3. Excitatory population: the input of a step reaches nothing but the
    trace [X] in that step.  Two calls of [forward] on the same population
    with different inputs end with the same voltages, currents, thresholds,
    refractory counters and spikes. *)
Theorem forward_input_reaches_only_X (self s1 s2 : QuintanaExcNodes.t)
  (x y x1 y1 : tensor) :
  QuintanaExcNodes.forward self x = Ok (s1, x1) ->
  QuintanaExcNodes.forward self y = Ok (s2, y1) ->
  QuintanaExcNodes.v s1 = QuintanaExcNodes.v s2 /\
  QuintanaExcNodes.I s1 = QuintanaExcNodes.I s2 /\
  QuintanaExcNodes.theta s1 = QuintanaExcNodes.theta s2 /\
  QuintanaExcNodes.refrac_count s1 = QuintanaExcNodes.refrac_count s2 /\
  QuintanaExcNodes.s s1 = QuintanaExcNodes.s s2.
Proof.
  unfold QuintanaExcNodes.forward. intros H1 H2.
  destruct (QuintanaExcNodes.dt self) as [h|]; [|discriminate].
  destruct (QuintanaExcNodes.shapes_ok self x); [|discriminate].
  destruct (QuintanaExcNodes.shapes_ok self y); [|discriminate].
  injection H1 as <- <-. injection H2 as <- <-. simpl.
  repeat split; reflexivity.
Qed.

Lemma forward_input_reaches_only_X_witness :
  exists self s1 x1,
    add_exc_layer hidden_args 0.5 1 = Ok self /\
    QuintanaExcNodes.forward self [[100; 0]] = Ok (s1, x1) /\
    exists s2 y1,
      QuintanaExcNodes.forward self [[0; 7]] = Ok (s2, y1) /\
      QuintanaExcNodes.v s1 = QuintanaExcNodes.v s2 /\
      QuintanaExcNodes.I s1 = QuintanaExcNodes.I s2 /\
      QuintanaExcNodes.theta s1 = QuintanaExcNodes.theta s2 /\
      QuintanaExcNodes.refrac_count s1 = QuintanaExcNodes.refrac_count s2 /\
      QuintanaExcNodes.s s1 = QuintanaExcNodes.s s2.
Proof.
  exc_step Hf1. eexists _, _. run_step Hf2.
  exact (forward_input_reaches_only_X _ _ _ _ _ _ _ Hf1 Hf2).
Defined.

(** ** X4 *)

(** X4. Excitatory population outside learning mode: a step leaves [theta]
    exactly as it was, spikes or not, and compares the leaked voltage with
    [thresh + theta] on that unchanged [theta]. *)
Theorem forward_theta_frozen_outside_learning
  (self self' : QuintanaExcNodes.t) (x x' : tensor) :
  QuintanaExcNodes.forward self x = Ok (self', x') ->
  QuintanaExcNodes.learning self = false ->
  QuintanaExcNodes.theta self' = QuintanaExcNodes.theta self /\
  forall b i q c th,
    tget (QuintanaExcNodes.v self) b i = Some q ->
    tget (QuintanaExcNodes.I self) b i = Some c ->
    nth_error (QuintanaExcNodes.theta self) i = Some th ->
    tget (QuintanaExcNodes.s self') b i =
      Some (Qge_bool (leak self q c) (QuintanaExcNodes.thresh self + th)).
Proof.
  intros H Hl. split.
  - forward_inv H. simpl. rewrite Hl. reflexivity.
  - intros b i q c th Hq Hc Hth.
    destruct (forward_index _ _ _ _ b i q H (or_introl Hq)) as [Hb Hi].
    destruct (forward_lookup _ _ _ _ b i H Hb Hi)
      as (q0 & c0 & xq & rc & xi & th0 & _ & _ & Hxq & Hrc & Hxi & _).
    destruct (forward_components _ _ _ _ b i q c xq rc xi th
                H Hq Hc Hxq Hrc Hxi Hth) as (h & _ & Hs & _).
    cbv zeta in Hs. unfold theta_decayed in Hs. rewrite Hl in Hs. exact Hs.
Qed.

Lemma forward_theta_frozen_outside_learning_witness :
  exists self self' x',
    match add_exc_layer (exc_args (-100.0) 2e7 10 (Some (-100.0))) 1 1 with
    | Ok st => Ok (QuintanaExcNodes.train st false)
    | Raise e => Raise e
    end = Ok self /\
    QuintanaExcNodes.forward self [[0]] = Ok (self', x') /\
    QuintanaExcNodes.s self' = [[true]] /\
    QuintanaExcNodes.theta self' = QuintanaExcNodes.theta self.
Proof.
  exc_step Hf. split; [reflexivity|].
  apply (forward_theta_frozen_outside_learning _ _ _ _ Hf). reflexivity.
Defined.

(** ** X5 *)

(** X5. Excitatory population: being refractory does not keep a neuron from
    spiking.  Whatever its refractory counter at the start of the step, a
    neuron whose leaked voltage reaches [thresh + theta] spikes, and its
    counter is set back to [refrac]. *)
Theorem forward_refractory_neuron_spikes
  (self self' : QuintanaExcNodes.t) (x x' : tensor)
  (b i : nat) (q c th rc : Q) :
  QuintanaExcNodes.forward self x = Ok (self', x') ->
  tget (QuintanaExcNodes.v self) b i = Some q ->
  tget (QuintanaExcNodes.I self) b i = Some c ->
  nth_error (QuintanaExcNodes.theta self) i = Some th ->
  tget (QuintanaExcNodes.refrac_count self) b i = Some rc ->
  0 < rc ->
  QuintanaExcNodes.thresh self + theta_decayed self th <= leak self q c ->
  tget (QuintanaExcNodes.s self') b i = Some true /\
  tget (QuintanaExcNodes.refrac_count self') b i =
    Some (QuintanaExcNodes.refrac self).
Proof.
  intros H Hq Hc Hth Hrc Hpos Hge.
  destruct (forward_index _ _ _ _ b i q H (or_introl Hq)) as [Hb Hi].
  destruct (forward_lookup _ _ _ _ b i H Hb Hi)
    as (q0 & c0 & xq & rc0 & xi & th0 & _ & _ & Hxq & _ & Hxi & _).
  destruct (forward_components _ _ _ _ b i q c xq rc xi th
              H Hq Hc Hxq Hrc Hxi Hth) as (h & _ & Hs & Hr & _).
  cbv zeta in Hs, Hr. apply Qge_bool_iff in Hge. rewrite Hge in Hs, Hr.
  split; assumption.
Qed.

(** The neuron of this population spikes in its first step, is refractory
    at the start of the second, and spikes in the second as well. *)
Lemma forward_refractory_neuron_spikes_witness :
  exists self self1 x1,
    add_exc_layer (exc_args (-100.0) 2e7 10 (Some (-100.0))) 1 1 = Ok self /\
    QuintanaExcNodes.forward self [[0]] = Ok (self1, x1) /\
    tget (QuintanaExcNodes.refrac_count self1) 0 0 = Some 2 /\
    exists self2 x2,
      QuintanaExcNodes.forward self1 [[0]] = Ok (self2, x2) /\
      tget (QuintanaExcNodes.s self2) 0 0 = Some true /\
      tget (QuintanaExcNodes.refrac_count self2) 0 0 = Some 2.
Proof.
  exc_step Hf1. split; [reflexivity|].
  eexists _, _. run_step Hf2.
  apply (forward_refractory_neuron_spikes _ _ _ _ 0 0 _ _ _ 2 Hf2
           eq_refl eq_refl eq_refl eq_refl).
  - reflexivity.
  - vm_compute. discriminate.
Defined.

(** ** X6 *)

(** X6. Excitatory population with a positive refractory duration: the step
    after a spike ignores the input at that neuron.  If a neuron spikes in
    one step, then in the next step the caller's input is zeroed at its
    position and its trace [X] only decays. *)
Theorem forward_after_spike_input_ignored
  (self s1 s2 : QuintanaExcNodes.t) (x x1 y y2 : tensor)
  (b i : nat) (yi xq : Q) :
  QuintanaExcNodes.forward self x = Ok (s1, x1) ->
  tget (QuintanaExcNodes.s s1) b i = Some true ->
  0 < QuintanaExcNodes.refrac self ->
  QuintanaExcNodes.forward s1 y = Ok (s2, y2) ->
  tget y b i = Some yi ->
  tget (QuintanaExcNodes.X s1) b i = Some xq ->
  tget y2 b i = Some 0 /\
  exists w,
    tget (QuintanaExcNodes.X s2) b i = Some w /\
    w == xq - QuintanaExcNodes.X_decay (QuintanaExcNodes.dec self) * xq.
Proof.
  intros H1 Hs Hrefrac H2 Hyi Hxq.
  (* first step: the counter of the spiking neuron is [refrac] *)
  destruct (forward_shapes _ _ _ _ H1 _ _ eq_refl eq_refl)
    as (_ & _ & _ & _ & Hsh & _).
  destruct (tget_has_shape _ _ _ b i _ Hsh Hs) as [Hb Hi].
  destruct (forward_lookup _ _ _ _ b i H1 Hb Hi)
    as (q & c & xq0 & rc & xi & th & Hq & Hc & Hxq0 & Hrc & Hxi & Hth).
  destruct (forward_components _ _ _ _ b i q c xq0 rc xi th
              H1 Hq Hc Hxq0 Hrc Hxi Hth) as (h & _ & Hs' & Hr & _).
  cbv zeta in Hs', Hr. rewrite Hs in Hs'. injection Hs' as Hfired.
  rewrite <- Hfired in Hr.
  (* second step: that counter is positive *)
  destruct (forward_frame _ _ _ _ H1) as (_ & _ & _ & Hdec & _).
  destruct (forward_index _ _ _ _ b i yi H2
              (or_intror (or_intror (or_intror (or_intror Hyi))))) as [Hb2 Hi2].
  destruct (forward_lookup _ _ _ _ b i H2 Hb2 Hi2)
    as (q2 & c2 & _ & _ & _ & th2 & Hq2 & Hc2 & _ & _ & _ & Hth2).
  destruct (forward_components _ _ _ _ b i q2 c2 xq
              (QuintanaExcNodes.refrac self) yi th2
              H2 Hq2 Hc2 Hxq Hr Hyi Hth2)
    as (h2 & _ & _ & _ & _ & _ & HX & Hy2).
  cbv zeta in HX, Hy2. apply Qgt_bool_iff in Hrefrac.
  rewrite Hrefrac in HX, Hy2. rewrite Hdec in HX.
  split; [exact Hy2|].
  eexists. split; [exact HX|]. apply Qplus_0_r.
Qed.

Lemma forward_after_spike_input_ignored_witness :
  exists self self1 x1,
    add_exc_layer (exc_args (-85.02) 2e7 10 (Some (-100.0))) 1 1 = Ok self /\
    QuintanaExcNodes.forward self [[5]] = Ok (self1, x1) /\
    tget (QuintanaExcNodes.s self1) 0 0 = Some true /\
    tget (QuintanaExcNodes.X self1) 0 0 = Some (0 - 1 / 5 * 0 + 5) /\
    exists self2 x2,
      QuintanaExcNodes.forward self1 [[3]] = Ok (self2, x2) /\
      tget x2 0 0 = Some 0 /\
      exists w, tget (QuintanaExcNodes.X self2) 0 0 = Some w /\ w == 4.
Proof.
  exc_step Hf1. split; [reflexivity|]. split; [reflexivity|].
  eexists _, _. run_step Hf2.
  destruct (forward_after_spike_input_ignored _ _ _ _ _ _ _ 0 0 3 _
              Hf1 eq_refl eq_refl Hf2 eq_refl eq_refl) as (Hy & w & Hw & Heq).
  split; [exact Hy|].
  exists w. split; [exact Hw|]. rewrite Heq. reflexivity.
Defined.

(** ** X7 *)

Lemma Qdiv_unit_interval (h tc : Q) :
  0 < h -> h <= tc -> 0 <= h / tc /\ h / tc <= 1.
Proof.
  intros Hh Hle. assert (Htc : 0 < tc) by lra. split.
  - apply Qle_shift_div_l; lra.
  - apply Qle_shift_div_r; lra.
Qed.

(** X7. [compute_decays] of the excitatory population, called with a time
    step [dt > 0] that is no larger than any of the four time constants:
    each of the rates [decay], [theta_decay], [I_decay] and [X_decay] lies
    between 0 and 1, both included; the state buffers and [theta] are not
    touched. *)
Theorem compute_decays_rates (pow : Q -> Q -> Q) (self : QuintanaExcNodes.t)
  (h : Q) :
  0 < h ->
  h <= QuintanaExcNodes.tc_decay self ->
  h <= QuintanaExcNodes.tc_theta_decay self ->
  h <= QuintanaExcNodes.tau_inc self ->
  h <= QuintanaExcNodes.tau_dec self ->
  let self' := QuintanaExcNodes.compute_decays pow self h in
  let d := QuintanaExcNodes.dec self' in
  QuintanaExcNodes.dt self' = Some h /\
  (0 <= QuintanaExcNodes.decay d /\ QuintanaExcNodes.decay d <= 1) /\
  (0 <= QuintanaExcNodes.theta_decay d /\ QuintanaExcNodes.theta_decay d <= 1) /\
  (0 <= QuintanaExcNodes.I_decay d /\ QuintanaExcNodes.I_decay d <= 1) /\
  (0 <= QuintanaExcNodes.X_decay d /\ QuintanaExcNodes.X_decay d <= 1) /\
  QuintanaExcNodes.v self' = QuintanaExcNodes.v self /\
  QuintanaExcNodes.I self' = QuintanaExcNodes.I self /\
  QuintanaExcNodes.X self' = QuintanaExcNodes.X self /\
  QuintanaExcNodes.refrac_count self' = QuintanaExcNodes.refrac_count self /\
  QuintanaExcNodes.theta self' = QuintanaExcNodes.theta self.
Proof.
  intros Hh H1 H2 H3 H4. cbv zeta. simpl.
  split; [reflexivity|].
  repeat (split; [apply Qdiv_unit_interval; assumption|]).
  repeat split; reflexivity.
Qed.

Lemma compute_decays_rates_witness :
  exists self,
    QuintanaExcNodes.init hidden_args exc_uninit = Ok self /\
    let d := QuintanaExcNodes.dec
               (QuintanaExcNodes.compute_decays Qpow_int self 0.5) in
    QuintanaExcNodes.decay d == 0.005 /\
    QuintanaExcNodes.I_decay d == 0.05 /\
    QuintanaExcNodes.X_decay d == 0.1 /\
    0 <= QuintanaExcNodes.theta_decay d /\ QuintanaExcNodes.theta_decay d <= 1.
Proof.
  eexists. split; [vm_compute; reflexivity|]. cbv zeta.
  split; [reflexivity|]. split; [reflexivity|]. split; [reflexivity|].
  apply (compute_decays_rates Qpow_int _ 0.5);
    vm_compute; solve [reflexivity | discriminate].
Defined.

(** ** X9 *)



(** ** X10 *)

(** X10. Output population outside learning mode, one step: the caller's
    input is left as it was and every input component is added to the
    decayed trace [X] (there is no refractory gating); the current moves
    towards [C * X] on the trace before the step; a neuron spikes exactly
    when its leaked voltage reaches [thresh], with no adaptive term, and then
    ends the step at [reset], otherwise at the leaked voltage, with no lower
    bound applied. *)
Theorem sl_forward_inference (self self' : QuintanaSLNodes.t) (x x' : tensor)
  (b i : nat) (q c xq xi : Q) :
  QuintanaSLNodes.forward self x = Ok (self', x') ->
  QuintanaSLNodes.learning self = false ->
  tget (QuintanaSLNodes.v self) b i = Some q ->
  tget (QuintanaSLNodes.I self) b i = Some c ->
  tget (QuintanaSLNodes.X self) b i = Some xq ->
  tget x b i = Some xi ->
  let d := QuintanaSLNodes.dec self in
  let v1 := q + QuintanaSLNodes.decay d *
                (QuintanaSLNodes.rest self - q + QuintanaSLNodes.R self * c) in
  let fired := Qge_bool v1 (QuintanaSLNodes.thresh self) in
  x' = x /\
  tget (QuintanaSLNodes.s self') b i = Some fired /\
  tget (QuintanaSLNodes.v self') b i =
    Some (if fired then QuintanaSLNodes.reset self else v1) /\
  tget (QuintanaSLNodes.I self') b i =
    Some (c + QuintanaSLNodes.I_decay d * (QuintanaSLNodes.C d * xq - c)) /\
  tget (QuintanaSLNodes.X self') b i =
    Some (xq - QuintanaSLNodes.X_decay d * xq + xi).
Proof.
  intros H Hl Hq Hc Hxq Hxi. cbv zeta.
  unfold QuintanaSLNodes.forward in H. rewrite Hl in H. simpl in H.
  destruct (QuintanaSLNodes.shapes_ok self x); [|discriminate].
  unfold QuintanaSLNodes.integrate in H. injection H as <- <-.
  simpl. split; [reflexivity|].
  rewrite masked_fill_tmap_diag, !tget_tmap, !tget_tmap2, !tget_tmap,
    Hq, Hc, Hxq, Hxi.
  simpl. repeat split; reflexivity.
Qed.

Lemma sl_forward_inference_witness :
  exists self self' x',
    match add_sl_layer (sl_args (-60.0) 10) 0.5 1 with
    | Ok st => Ok (QuintanaSLNodes.train st false)
    | Raise e => Raise e
    end = Ok self /\
    QuintanaSLNodes.forward self [[7]] = Ok (self', x') /\
    x' = [[7]] /\
    tget (QuintanaSLNodes.s self') 0 0 = Some false /\
    tget (QuintanaSLNodes.X self') 0 0 = Some (0 - 0.5 / 5 * 0 + 7).
Proof.
  exc_step Hf.
  destruct (sl_forward_inference _ _ _ _ 0 0 _ _ _ _ Hf
              eq_refl eq_refl eq_refl eq_refl eq_refl)
    as (Hx & Hs & _ & _ & HX).
  split; [exact Hx|]. split; [exact Hs|]. exact HX.
Defined.

(** After a step, in either mode, a voltage is below [thresh] or is the
    reset voltage. *)
Lemma sl_forward_v_cases (self self' : QuintanaSLNodes.t) (x x' : tensor)
  (b i : nat) (w : Q) :
  QuintanaSLNodes.forward self x = Ok (self', x') ->
  tget (QuintanaSLNodes.v self') b i = Some w ->
  w < QuintanaSLNodes.thresh self \/ w = QuintanaSLNodes.reset self.
Proof.
  unfold QuintanaSLNodes.forward. intro H.
  assert (Hfire : forall v1 I1 X1,
             tget (QuintanaSLNodes.v (QuintanaSLNodes.fire self v1 I1 X1)) b i
               = Some w ->
             w < QuintanaSLNodes.thresh self \/ w = QuintanaSLNodes.reset self).
  { intros v1 I1 X1. unfold QuintanaSLNodes.fire. simpl.
    rewrite masked_fill_tmap_diag, tget_tmap.
    destruct (tget v1 b i) as [a|]; simpl; [|discriminate].
    destruct (Qge_bool a (QuintanaSLNodes.thresh self)) eqn:E;
      intros [= <-]; auto.
    left. apply Qge_bool_false, E. }
  destruct (negb (QuintanaSLNodes.learning self)).
  - destruct (QuintanaSLNodes.shapes_ok self x); [|discriminate].
    destruct (QuintanaSLNodes.integrate self x) as [[v1 I1] X2].
    injection H as <- <-. apply Hfire.
  - injection H as <- <-. apply Hfire.
Qed.

(** ** X12 *)

Lemma tmap_fixed {A : Type} (f : A -> A) (t : list (list A)) :
  Forall (Forall (fun a => f a = a)) t -> tmap f t = t.
Proof.
  unfold tmap. induction 1 as [|r t Hr Ht IH]; simpl; [reflexivity|].
  f_equal; [|exact IH].
  induction Hr as [|a r Ha Hr IHr]; simpl; [reflexivity|]. now f_equal.
Qed.

(** X12. Output population: once a step has run, in either mode, switching
    to learning mode freezes the membrane state completely.  The next step
    returns for any input, leaves the input alone, and ends with [v], [I]
    and [X] exactly as the earlier step left them. *)
Theorem sl_learning_step_after_step_freezes
  (self s1 : QuintanaSLNodes.t) (x x1 y : tensor) :
  QuintanaSLNodes.forward self x = Ok (s1, x1) ->
  exists s2,
    QuintanaSLNodes.forward (QuintanaSLNodes.train s1 true) y = Ok (s2, y) /\
    QuintanaSLNodes.v s2 = QuintanaSLNodes.v s1 /\
    QuintanaSLNodes.I s2 = QuintanaSLNodes.I s1 /\
    QuintanaSLNodes.X s2 = QuintanaSLNodes.X s1.
Proof.
  intro H.
  assert (Hc : forall b i w,
             tget (QuintanaSLNodes.v s1) b i = Some w ->
             w < QuintanaSLNodes.thresh self \/
             w = QuintanaSLNodes.reset self)
    by (intros b i w; apply (sl_forward_v_cases _ _ _ _ b i w H)).
  assert (Hp : QuintanaSLNodes.thresh s1 = QuintanaSLNodes.thresh self /\
               QuintanaSLNodes.reset s1 = QuintanaSLNodes.reset self).
  { unfold QuintanaSLNodes.forward in H.
    destruct (negb (QuintanaSLNodes.learning self)).
    - destruct (QuintanaSLNodes.shapes_ok self x); [|discriminate].
      destruct (QuintanaSLNodes.integrate self x) as [[v1 I1] X2].
      injection H as <- <-. split; reflexivity.
    - injection H as <- <-. split; reflexivity. }
  destruct Hp as [Hthresh Hreset].
  unfold QuintanaSLNodes.forward. simpl.
  eexists. split; [reflexivity|]. simpl.
  repeat split.
  rewrite masked_fill_tmap_diag. apply tmap_fixed.
  apply tget_Forall. intros b i w Hw. rewrite Hthresh, Hreset.
  destruct (Hc b i w Hw) as [Hlt | ->].
  - destruct (Qge_bool w (QuintanaSLNodes.thresh self)) eqn:E; auto.
    apply Qge_bool_iff in E. lra.
  - destruct (Qge_bool _ _); reflexivity.
Qed.

(** A population constructed with [rest = -30] above [thresh = -40]: its
    first step moves the voltage to [reset = -45]; from then on a
    learning-mode step changes nothing. *)
Lemma sl_learning_step_after_step_freezes_witness :
  exists self s1 x1,
    add_sl_layer (sl_args (-30.0) 10) 0.5 1 = Ok self /\
    QuintanaSLNodes.forward self [[0]] = Ok (s1, x1) /\
    QuintanaSLNodes.v s1 = [[-45.0]] /\
    exists s2,
      QuintanaSLNodes.forward (QuintanaSLNodes.train s1 true) [[9]]
        = Ok (s2, [[9]]) /\
      QuintanaSLNodes.v s2 = QuintanaSLNodes.v s1 /\
      QuintanaSLNodes.I s2 = QuintanaSLNodes.I s1 /\
      QuintanaSLNodes.X s2 = QuintanaSLNodes.X s1.
Proof.
  exc_step Hf. split; [reflexivity|].
  exact (sl_learning_step_after_step_freezes _ _ _ _ [[9]] Hf).
Defined.

(** ** X13 *)

Lemma exc_ready_shapes_ok (batch_size : nat) (self : QuintanaExcNodes.t)
  (x : tensor) :
  exc_ready batch_size self ->
  has_shape batch_size (QuintanaExcNodes.n self) x = true ->
  QuintanaExcNodes.shapes_ok self x = true.
Proof.
  intros (_ & _ & Hlen & Hs) Hx.
  apply shapes_ok_spec in Hs. cbv zeta in Hs. rewrite Hlen in Hs.
  apply shapes_ok_spec. cbv zeta. rewrite Hlen. tauto.
Qed.

(** X13. Excitatory population, batch of at least one element: no call of
    the simulation raises.  A population that was constructed, given its
    decays by [compute_decays] and its buffers by [set_batch_size] is ready;
    and [forward] on a ready population, for any input of shape
    [batch_size, n], returns a population that is ready again, with the same
    [n]. *)
Theorem exc_ready_invariant (batch_size : nat) :
  (0 < batch_size)%nat ->
  (forall a u pow h self,
      QuintanaExcNodes.init a u = Ok self ->
      exc_ready batch_size
        (QuintanaExcNodes.set_batch_size
           (QuintanaExcNodes.compute_decays pow self h) batch_size)) /\
  (forall self x,
      exc_ready batch_size self ->
      has_shape batch_size (QuintanaExcNodes.n self) x = true ->
      exists self' x',
        QuintanaExcNodes.forward self x = Ok (self', x') /\
        QuintanaExcNodes.n self' = QuintanaExcNodes.n self /\
        exc_ready batch_size self').
Proof.
  intro Hpos. split.
  - intros a u pow h self Hinit. unfold QuintanaExcNodes.init in Hinit.
    destruct (Nodes_init _ _) as [k|e]; [|discriminate].
    injection Hinit as <-.
    assert (Hb : length (tmap (fun one => QuintanaExcNodes.a_rest a * one)
                              (full batch_size k 1)) = batch_size)
      by (unfold tmap, full; now rewrite length_map, repeat_length).
    split; [exact Hpos|].
    split; [eexists; reflexivity|]. split; [exact Hb|].
    apply shapes_ok_spec. cbv zeta. simpl.
    match goal with
    | |- has_shape ?l _ _ = _ /\ _ =>
        replace l with batch_size
          by (unfold tmap, full; now rewrite length_map, repeat_length)
    end.
    repeat split; auto with shapes.
    now rewrite length_map, repeat_length.
  - intros self x Hready Hx.
    pose proof (exc_ready_shapes_ok _ _ _ Hready Hx) as Hok.
    destruct Hready as (_ & (h & Hdt) & Hlen & _).
    destruct (forward_returns self x h Hdt Hok) as (self' & x' & H).
    exists self', x'. split; [exact H|].
    destruct (forward_frame _ _ _ _ H) as (Hn & _ & _ & _ & Hdt' & _).
    destruct (forward_shapes _ _ _ _ H _ _ eq_refl eq_refl)
      as (Hv & HI & HX & Hrc & _ & _ & Hth).
    rewrite Hlen in *.
    assert (Hlen' : length (QuintanaExcNodes.v self') = batch_size).
    { apply has_shape_spec in Hv. apply Hv. }
    split; [exact Hn|]. split; [exact Hpos|].
    split; [exists h; congruence|]. split; [exact Hlen'|].
    apply shapes_ok_spec. cbv zeta. rewrite Hlen', Hn.
    repeat split; auto with shapes.
Qed.

Lemma exc_ready_invariant_witness :
  exists self self' x',
    add_exc_layer hidden_args 0.5 3 = Ok self /\
    exc_ready 3 self /\
    QuintanaExcNodes.forward self [[100; 0]; [0; 0]; [1; 1]] = Ok (self', x') /\
    exc_ready 3 self'.
Proof.
  destruct (exc_ready_invariant 3) as [Hadd Hstep]; [lia|].
  pose proof (Hadd hidden_args exc_uninit Qpow_int 0.5 _ eq_refl) as Hready.
  destruct (Hstep _ [[100; 0]; [0; 0]; [1; 1]] Hready eq_refl)
    as (self' & x' & Hf & _ & Hready').
  eexists _, self', x'. split; [reflexivity|]. split; [exact Hready|].
  split; [exact Hf|exact Hready'].
Defined.

(** ** X14 *)

Lemma tget_full_inside {A : Type} (bs k : nat) (a : A) (b i : nat) :
  (b < bs)%nat -> (i < k)%nat -> tget (full bs k a) b i = Some a.
Proof.
  intros Hb Hi. unfold tget, full.
  rewrite (nth_error_repeat _ Hb). apply nth_error_repeat, Hi.
Qed.

Lemma tget_diag (d : vec) (i j : nat) :
  (i < length d)%nat -> (j < length d)%nat ->
  tget (Quintana2020.diag d) i j =
  Some (if (i =? j)%nat then nth i d 0 else 0).
Proof.
  intros Hi Hj. unfold tget, Quintana2020.diag.
  rewrite nth_error_map, nth_error_seq.
  apply Nat.ltb_lt in Hi as Hi'. rewrite Hi'. simpl.
  rewrite nth_error_map, nth_error_seq.
  apply Nat.ltb_lt in Hj as Hj'. rewrite Hj'. reflexivity.
Qed.

Lemma has_shape_diag (d : vec) :
  has_shape (length d) (length d) (Quintana2020.diag d) = true.
Proof.
  apply has_shape_spec. unfold Quintana2020.diag. split.
  - now rewrite length_map, length_seq.
  - apply Forall_map, Forall_forall. intros i _.
    now rewrite length_map, length_seq.
Qed.

(** X14. The recurrent weights that the network hands to the inhibitory
    connection of [n] excitatory neurons form an [n] by [n] matrix with zero
    on the diagonal and [-inh] everywhere else: each neuron inhibits every
    other one and not itself.  For [inh >= 0] every weight lies within the
    bounds [wmin = -inh], [wmax = 0] passed along with it. *)
Theorem recurrent_w_spec (inh : Q) (n_neurons : nat) :
  has_shape n_neurons n_neurons (Quintana2020.recurrent_w inh n_neurons)
    = true /\
  forall i j,
    (i < n_neurons)%nat -> (j < n_neurons)%nat ->
    exists e,
      tget (Quintana2020.recurrent_w inh n_neurons) i j = Some e /\
      (i = j -> e == 0) /\
      (i <> j -> e == - inh) /\
      (0 <= inh ->
       Quintana2020.recurrent_wmin inh <= e /\
       e <= Quintana2020.recurrent_wmax).
Proof.
  unfold Quintana2020.recurrent_w, Quintana2020.ones. split.
  - apply has_shape_tmap, has_shape_tmap2; [apply has_shape_full|].
    pose proof (has_shape_diag (repeat 1 n_neurons)) as H.
    now rewrite repeat_length in H.
  - intros i j Hi Hj.
    rewrite tget_tmap, tget_tmap2, tget_full_inside, tget_diag
      by (rewrite ?repeat_length; assumption).
    simpl. eexists. split; [reflexivity|].
    unfold Quintana2020.recurrent_wmin, Quintana2020.recurrent_wmax.
    destruct (Nat.eqb_spec i j) as [Heq|Hneq].
    + rewrite (nth_error_nth _ _ 0 (nth_error_repeat 1 Hi)).
      repeat split; intros; try contradiction; try ring; nra.
    + repeat split; intros; try contradiction; try ring; nra.
Qed.

Lemma recurrent_w_spec_witness :
  Quintana2020.recurrent_w 60 3 =
    [[- 60 * (1 - 1); - 60 * (1 - 0); - 60 * (1 - 0)];
     [- 60 * (1 - 0); - 60 * (1 - 1); - 60 * (1 - 0)];
     [- 60 * (1 - 0); - 60 * (1 - 0); - 60 * (1 - 1)]] /\
  exists e,
    tget (Quintana2020.recurrent_w 60 3) 0 1 = Some e /\
    e == - (60) /\ -(60) <= e /\ e <= 0.
Proof.
  split; [reflexivity|].
  destruct (recurrent_w_spec 60 3) as [_ H].
  destruct (H 0%nat 1%nat) as (e & He & _ & Hoff & Hb); [lia|lia|].
  exists e. split; [exact He|]. split; [apply Hoff; discriminate|].
  apply Hb. discriminate.
Defined.

(** ** X15 *)





(** ** X16 *)

(** X16. Excitatory population on binary32 numbers: a NaN voltage is
    absorbing.  A neuron whose voltage is NaN at the start of a step does not
    spike in the step and ends it with its voltage still NaN, whatever the
    input, the other buffers and the lower bound. *)
Theorem forward32_nan_voltage_stays (self self' : QuintanaExcNodes32.t)
  (x x' : list (list F32.t)) (b i : nat) :
  QuintanaExcNodes32.forward self x = Ok (self', x') ->
  tget (QuintanaExcNodes32.v self) b i = Some S754_nan ->
  tget (QuintanaExcNodes32.s self') b i = Some false /\
  tget (QuintanaExcNodes32.v self') b i = Some S754_nan.
Proof.
  unfold QuintanaExcNodes32.forward. intros H Hv.
  destruct (QuintanaExcNodes32.dt self) as [h|]; [|discriminate].
  destruct (QuintanaExcNodes32.shapes_ok self x) eqn:Hs; [|discriminate].
  injection H as <- <-. simpl.
  unfold QuintanaExcNodes32.shapes_ok in Hs.
  rewrite !andb_true_iff, Nat.eqb_eq in Hs.
  destruct Hs as (((((Hsv & HsI) & _) & _) & _) & Hth).
  destruct (tget_has_shape _ _ _ b i _ Hsv Hv) as [Hb Hi].
  destruct (has_shape_tget _ _ _ b i HsI Hb Hi) as [c Hc].
  set (theta1 := if QuintanaExcNodes32.learning self then _ else _).
  assert (Hth1 : exists th1, nth_error theta1 i = Some th1).
  { assert (Hlen : length theta1 = QuintanaExcNodes32.n self)
      by (unfold theta1; destruct (QuintanaExcNodes32.learning self);
          auto with shapes).
    destruct (nth_error theta1 i) as [th1|] eqn:E; [eauto|].
    apply nth_error_None in E. lia. }
  destruct Hth1 as [th1 Hth1].
  set (v1 := tmap2 _ (QuintanaExcNodes32.v self) (QuintanaExcNodes32.I self)).
  assert (Hv1 : tget v1 b i = Some S754_nan).
  { unfold v1. rewrite tget_tmap2, Hv, Hc. reflexivity. }
  set (s1 := tmap_row _ v1 theta1).
  assert (Hs1 : tget s1 b i = Some false).
  { unfold s1. rewrite tget_tmap_row, Hv1, Hth1. unfold F32.ge, SFleb.
    destruct (F32.add (QuintanaExcNodes32.thresh self) th1); reflexivity. }
  split; [exact Hs1|].
  destruct (QuintanaExcNodes32.lbound self) as [lb|].
  - rewrite masked_fill_tmap_diag, tget_tmap, tget_masked_fill, Hv1, Hs1.
    reflexivity.
  - rewrite tget_masked_fill, Hv1, Hs1. reflexivity.
Qed.

(** The overflow of the hidden layer, one step further: the voltage that is
    NaN after the fourth step is NaN after the fifth, with input zero. *)
Lemma forward32_nan_voltage_stays_witness :
  exists self s1 x1 s2 x2 s3 x3 s4 x4,
    add_exc32_layer hidden_args 0.5 1 = Ok self /\
    QuintanaExcNodes32.forward self [[F32.of_Q 3e38; F32.zero]]
      = Ok (s1, x1) /\
    QuintanaExcNodes32.forward s1 [[F32.of_Q 3e38; F32.zero]] = Ok (s2, x2) /\
    QuintanaExcNodes32.forward s2 [[F32.of_Q 3e38; F32.zero]] = Ok (s3, x3) /\
    QuintanaExcNodes32.forward s3 [[F32.of_Q 3e38; F32.zero]] = Ok (s4, x4) /\
    exists s5 x5,
      QuintanaExcNodes32.forward s4 [[F32.zero; F32.zero]] = Ok (s5, x5) /\
      tget (QuintanaExcNodes32.s s5) 0 0 = Some false /\
      tget (QuintanaExcNodes32.v s5) 0 0 = Some S754_nan.
Proof.
  eexists _, _, _, _, _, _, _, _, _.
  split; [vm_compute; reflexivity|].
  split; [vm_compute; reflexivity|].
  split; [vm_compute; reflexivity|].
  split; [vm_compute; reflexivity|].
  split; [vm_compute; reflexivity|].
  eexists _, _. run_step Hf5.
  apply (forward32_nan_voltage_stays _ _ _ _ 0 0 Hf5). reflexivity.
Defined.
